(** * Bounding-box transforms of [xinshuo_math/python/bbox_transform.py]

    A shallow embedding of the box functions of the toolbox and the
    properties the specification states about them.

    - numpy arrays of boxes are lists of rows; the element type is a
      parameter (the dtype), with the two dtypes the functions meet in
      practice as instances: [int64] (wrap-around integers) and
      [float64] (IEEE binary64, Rocq's primitive floats);
    - a Python exception is the [Raise] branch of [result];
    - the functions are also given over an explicit store (or heap) of
      arrays, where the identity of an array (its location) is
      observable: which arrays a call reads, makes and overwrites;
    - the regression encode/decode pair uses [exp] and [log], the inverse
      rotation [cos] and [sin], which the primitive floats do not have:
      both are embedded over the reals. *)

From Stdlib Require Import ZArith List Bool String Lia.
From Stdlib Require Import Floats DecimalString.
From Stdlib Require Import Reals Lra.
Import ListNotations.

Set Implicit Arguments.
Set Warnings "-inexact-float".

(** ** Exceptions *)

Inductive exn : Type :=
| AssertionError (msg : string)
| ValueError (msg : string)
| IndexError (msg : string)
| TypeError (msg : string)
| NameError (msg : string)
| FloatingPointError (msg : string).

Inductive result (A : Type) : Type :=
| Ok (a : A)
| Raise (e : exn).

Arguments Ok {A} a.
Arguments Raise {A} e.

Definition bind {A B : Type} (r : result A) (k : A -> result B) : result B :=
  match r with
  | Ok a => k a
  | Raise e => Raise e
  end.

Notation "x <- r ;; k" := (bind r (fun x => k))
  (at level 61, r at next level, right associativity).

(** [if debug: assert c, msg] *)
Definition py_assert (debug : bool) (c : bool) (msg : string) : result unit :=
  if debug then (if c then Ok tt else Raise (AssertionError msg)) else Ok tt.

Definition is_ok {A : Type} (r : result A) : bool :=
  match r with Ok _ => true | Raise _ => false end.

(** ** Element types of the arrays *)

Class Dtype (T : Type) : Type := {
  zero : T;                 (* the literal 0 at this dtype *)
  add : T -> T -> T;
  sub : T -> T -> T;
  le : T -> T -> bool;      (* elementwise <= ; a >= b is [le b a] *)
  isnan : T -> bool
}.

(** The order facts the clipping theorems need.  The integers satisfy
    them outright; the floats satisfy them with NaN the one value that
    compares with nothing. *)
Class DtypeOrder (T : Type) {D : Dtype T} : Prop := {
  le_isnan : forall a b, le a b = true -> isnan a = false /\ isnan b = false;
  le_total : forall a b, isnan a = false -> isnan b = false ->
                         le a b = true \/ le b a = true;
  le_trans : forall a b c, le a b = true -> le b c = true -> le a c = true
}.

Arguments DtypeOrder T {D}.

(** *** int64: two's complement wrap-around on Z *)

Definition int64_min : Z := (- 2 ^ 63)%Z.
Definition int64_max : Z := (2 ^ 63 - 1)%Z.

Definition wrap64 (z : Z) : Z := ((z + 2 ^ 63) mod 2 ^ 64 - 2 ^ 63)%Z.

Definition in_int64 (z : Z) : Prop := (int64_min <= z <= int64_max)%Z.

#[export] Instance int64 : Dtype Z := {|
  zero := 0%Z;
  add := fun a b => wrap64 (a + b);
  sub := fun a b => wrap64 (a - b);
  le := Z.leb;
  isnan := fun _ => false
|}.

(** *** float64: IEEE 754 binary64 *)

#[export] Instance float64 : Dtype float := {|
  zero := PrimFloat.zero;
  add := PrimFloat.add;
  sub := PrimFloat.sub;
  le := PrimFloat.leb;
  isnan := PrimFloat.is_nan
|}.

(** ** Boxes and the coercion of the inputs *)

(** One row of an N x 4 array. *)
Record box (T : Type) : Type := Box { c0 : T; c1 : T; c2 : T; c3 : T }.

Arguments Box {T} c0 c1 c2 c3.

(** What a caller may pass for [bboxes_in]: a flat sequence (a list or a
    1-d array) or a sequence of rows (a list of lists or a 2-d array). *)
Inductive bbox_input (T : Type) : Type :=
| Flat (l : list T)
| Rows (ll : list (list T)).

Arguments Flat {T} l.
Arguments Rows {T} ll.

Definition row_of_list {T : Type} (l : list T) : option (box T) :=
  match l with
  | [a; b; c; d] => Some (Box a b c d)
  | _ => None
  end.

Fixpoint rows_of_lists {T : Type} (ll : list (list T)) : option (list (box T)) :=
  match ll with
  | [] => Some []
  | l :: ll' =>
      match row_of_list l, rows_of_lists ll' with
      | Some r, Some rs => Some (r :: rs)
      | _, _ => None
      end
  end.

Definition list_of_row {T : Type} (b : box T) : list T :=
  [c0 b; c1 b; c2 b; c3 b].

(** An N x 4 array handed on to another function of the module. *)
Definition ndarray {T : Type} (m : list (box T)) : bbox_input T :=
  Rows (map list_of_row m).

(** Modelled from the spec: [safe_bbox] of the module [private] is not in
    src/.  The spec describes it as the "validate and coerce to matrix"
    utility "accepting list, list-of-lists, or array input and returning a
    uniform N x 4 numeric matrix, used by all box-accepting functions as
    their first step". *)
Definition safe_bbox {T : Type} (bboxes_in : bbox_input T) (debug : bool)
  : result (list (box T)) :=
  match bboxes_in with
  | Flat l =>
      match row_of_list l with
      | Some r => Ok [r]
      | None => Raise (AssertionError "the input bounding box is not correct")
      end
  | Rows ll =>
      match rows_of_lists ll with
      | Some rs => Ok rs
      | None => Raise (AssertionError "the input bounding box is not correct")
      end
  end.

Section Boxes.

Context {T : Type} `{Dtype T}.

(** Modelled from the spec: [bboxcheck_TLBR] of the module [private] is not
    in src/.  The spec: the conversions "validate that the input already
    satisfies the respective format's ordering invariant (x1<=x2 etc.)";
    the source's comment at its use: "the input bounding box should be
    TLBR format". *)
Definition bboxcheck_TLBR (m : list (box T)) : bool :=
  forallb (fun b => le (c0 b) (c2 b) && le (c1 b) (c3 b)) m.

(** Modelled from the spec: [bboxcheck_TLWH] of the module [private] is not
    in src/.  The spec's data model: "Box (TLWH): 4 numbers (x, y, w, h);
    w>=0, h>=0". *)
Definition bboxcheck_TLWH (m : list (box T)) : bool :=
  forallb (fun b => le zero (c2 b) && le zero (c3 b)) m.

(** *** Format transform *)

(** [bbox_TLWH[:, 0] = np_bboxes[:, 0]] ... one row at a time. *)
Definition TLBR2TLWH_row (b : box T) : box T :=
  Box (c0 b) (c1 b) (sub (c2 b) (c0 b)) (sub (c3 b) (c1 b)).

Definition bbox_TLBR2TLWH (bboxes_in : bbox_input T) (debug : bool)
  : result (list (box T)) :=
  np_bboxes <- safe_bbox bboxes_in debug ;;
  _ <- py_assert debug (bboxcheck_TLBR np_bboxes)
         "the input bounding box should be TLBR format" ;;
  Ok (map TLBR2TLWH_row np_bboxes).

Definition TLWH2TLBR_row (b : box T) : box T :=
  Box (c0 b) (c1 b) (add (c2 b) (c0 b)) (add (c3 b) (c1 b)).

Definition bbox_TLWH2TLBR (bboxes_in : bbox_input T) (debug : bool)
  : result (list (box T)) :=
  np_bboxes <- safe_bbox bboxes_in debug ;;
  _ <- py_assert debug (bboxcheck_TLWH np_bboxes)
         "the input bounding box should be TLBR format" ;;
  Ok (map TLWH2TLBR_row np_bboxes).

(** Equal as numbers: the two zeros of the floats are. *)
Definition numeq (a b : T) : bool := le a b && le b a.

(** *** Clipping *)

(** numpy's elementwise [minimum] and [maximum]: the first argument when
    the comparison holds or it is NaN, the second otherwise. *)
Definition np_minimum (a b : T) : T := if le a b || isnan a then a else b.
Definition np_maximum (a b : T) : T := if le b a || isnan a then a else b.

(** [np.maximum(np.minimum(x, bound), 0)] *)
Definition clamp (bound x : T) : T := np_maximum (np_minimum x bound) zero.

(** One row of [clipped_bboxes].  [im_width] and [im_height] are taken at
    the dtype of the array, where the broadcast against a column has them. *)
Definition clip_row (im_width im_height : T) (b : box T) : box T :=
  Box (clamp im_width (c0 b)) (clamp im_height (c1 b))
      (clamp im_width (c2 b)) (clamp im_height (c3 b)).

(** [isinteger] of [xinshuo_miscellaneous] is not in src/: the test it
    makes on the image size is a parameter of the development. *)
Variable isinteger : T -> bool.

Definition clip_bboxes_TLBR (bboxes_in : bbox_input T) (im_width im_height : T)
    (debug : bool) : result (list (box T)) :=
  np_bboxes <- safe_bbox bboxes_in debug ;;
  _ <- py_assert debug (isinteger im_width && isinteger im_height)
         "the image width and height are not correct" ;;
  _ <- py_assert debug (bboxcheck_TLBR np_bboxes)
         "the input bboxes are not good" ;;
  Ok (map (clip_row im_width im_height) np_bboxes).

Definition clip_bboxes_TLWH (bboxes_in : bbox_input T) (im_width im_height : T)
    (debug : bool) : result (list (box T)) :=
  np_bboxes <- safe_bbox bboxes_in debug ;;
  _ <- py_assert debug (isinteger im_width && isinteger im_height)
         "the image width and height are not correct" ;;
  _ <- py_assert debug (bboxcheck_TLWH np_bboxes)
         "the input bboxes are not good" ;;
  bboxes_TLBR <- bbox_TLWH2TLBR (ndarray np_bboxes) debug ;;
  clipped_bboxes_TLBR <-
    clip_bboxes_TLBR (ndarray bboxes_TLBR) im_width im_height debug ;;
  bbox_TLBR2TLWH (ndarray clipped_bboxes_TLBR) debug.

End Boxes.

(** The comparison of two binary64 values is the lexicographic comparison
    of (class and sign, exponent, mantissa). *)
Definition sfkey (x : spec_float) : option (Z * Z * Z) :=
  match x with
  | S754_nan => None
  | S754_zero _ => Some (0, 0, 0)%Z
  | S754_infinity s => Some (if s then (-2)%Z else 2%Z, 0%Z, 0%Z)
  | S754_finite s m e =>
      Some (if s then ((-1)%Z, (- e)%Z, Zneg m) else (1%Z, e, Zpos m))
  end.

Definition lexle (k k' : Z * Z * Z) : Prop :=
  let '(a, b, c) := k in
  let '(a', b', c') := k' in
  (a < a' \/ (a = a' /\ (b < b' \/ (b = b' /\ c <= c'))))%Z.


(** ** Conversions between binary64 and the integers *)

(** The binary64 value nearest to an integer ([float(z)], [astype(float)]). *)
Definition float_of_Z (z : Z) : float :=
  SF2Prim (binary_normalize prec emax z 0%Z false).

(** [m * 2^e] rounded towards minus infinity, and towards plus infinity. *)
Definition scaled_floor (m e : Z) : Z :=
  if (0 <=? e)%Z then (m * 2 ^ e)%Z else (m / 2 ^ (- e))%Z.

Definition scaled_ceil (m e : Z) : Z := (- scaled_floor (- m) e)%Z.

Definition signed (s : bool) (m : positive) : Z :=
  if s then Zneg m else Zpos m.

(** [np.ceil] on a float: zeros, infinities and NaN are left as they are. *)
Definition float_ceil (f : float) : float :=
  match Prim2SF f with
  | S754_finite s m e =>
      let c := scaled_ceil (signed s m) e in
      if (c =? 0)%Z then (if s then PrimFloat.neg_zero else PrimFloat.zero)
      else float_of_Z c
  | _ => f
  end.

(** [astype('int64')] on a float: the fraction is dropped; what does not fit
    (also an infinity or NaN) gives the most negative int64, as the
    conversion instruction of the processor does. *)
Definition float_to_int64 (f : float) : Z :=
  match Prim2SF f with
  | S754_zero _ => 0%Z
  | S754_finite s m e =>
      let t := if s then (- scaled_floor (Zpos m) e)%Z
               else scaled_floor (Zpos m) e in
      if ((int64_min <=? t) && (t <=? int64_max))%Z then t else int64_min
  | _ => int64_min
  end.

(** The value is a whole number. *)
Definition float_is_integral (f : float) : bool :=
  match Prim2SF f with
  | S754_zero _ => true
  | S754_finite _ m e => (0 <=? e)%Z || (Zpos m mod 2 ^ (- e) =? 0)%Z
  | _ => false
  end.

(** Modelled from the spec: [isinteger] of [xinshuo_miscellaneous] is not in
    src/.  The spec: "Width/height must be non-negative integers; violation
    signals InvalidImageSize".  At the two dtypes: *)
Definition isinteger_int64 (z : Z) : bool := (0 <=? z)%Z.

Definition isinteger_float64 (f : float) : bool :=
  float_is_integral f && PrimFloat.leb PrimFloat.zero f.

(** ** Center-crop box construction *)

(** A Python scalar argument. *)
Inductive pynum : Type :=
| PyInt (z : Z)
| PyFloat (f : float).

(** [x / 2] on a Python scalar.  The module is Python 2 code: it calls
    [xrange], and [apply_rotation_loose] passes [all_boxes.shape[1] / 4] to
    it as a loop bound.  There is no [from __future__ import division], so
    [/] between two integers is the floor division. *)
Definition py_div2 (x : pynum) : pynum :=
  match x with
  | PyInt z => PyInt (z / 2)
  | PyFloat f => PyFloat (PrimFloat.div f 2)
  end.

(** [np.ceil] of a Python scalar: always a float64. *)
Definition py_ceil (x : pynum) : float :=
  match x with
  | PyInt z => float_of_Z z
  | PyFloat f => float_ceil f
  end.

(** What [get_center_crop_bbox] needs of the dtype of its array: [a / 2]
    (on an integer array again the floor division), [np.ceil(a)] and the
    promotion to float64 when the array meets float64 values. *)
Class CropDtype (T : Type) : Type := {
  div2 : T -> T;
  np_ceil : T -> float;
  as_float64 : T -> float
}.

#[export] Instance int64_crop : CropDtype Z := {|
  div2 := fun z => (z / 2)%Z;
  np_ceil := float_of_Z;
  as_float64 := float_of_Z
|}.

#[export] Instance float64_crop : CropDtype float := {|
  div2 := fun f => PrimFloat.div f 2;
  np_ceil := float_ceil;
  as_float64 := fun f => f
|}.

(** An N x 2 or an N x 4 array of center boxes. *)
Inductive center_matrix (T : Type) : Type :=
| Centers2 (rows : list (T * T))
| Centers4 (rows : list (box T)).

Arguments Centers2 {T} rows.
Arguments Centers4 {T} rows.

Fixpoint pairs_of_lists {T : Type} (ll : list (list T)) : option (list (T * T)) :=
  match ll with
  | [] => Some []
  | [a; b] :: ll' =>
      match pairs_of_lists ll' with
      | Some ps => Some ((a, b) :: ps)
      | None => None
      end
  | _ :: _ => None
  end.

(** Modelled from the spec: [safe_center_bbox] of the module [private] and
    [iscenterbbox] of [xinshuo_miscellaneous] are not in src/.  The spec's
    center box is "either (crop_w, crop_h) relative to an externally
    supplied image center, or (center_x, center_y, crop_w, crop_h)"; the
    docstring of the caller: "a list of 2 or 4 scalar elements, or (N, 2) /
    (N, 4) numpy array".  An input without rows has no column count and is
    refused. *)
Definition safe_center_bbox {T : Type} (center_bboxes_in : bbox_input T)
    (debug : bool) : result (center_matrix T) :=
  let bad := Raise (AssertionError "the center bbox does not have a good shape") in
  match center_bboxes_in with
  | Flat [a; b] => Ok (Centers2 [(a, b)])
  | Flat [a; b; c; d] => Ok (Centers4 [Box a b c d])
  | Flat _ => bad
  | Rows [] => bad
  | Rows ll =>
      match pairs_of_lists ll, rows_of_lists ll with
      | Some ps, _ => Ok (Centers2 ps)
      | None, Some rs => Ok (Centers4 rs)
      | None, None => bad
      end
  end.

Section CenterCrop.

Context {T : Type} `{CropDtype T}.

(** One row of [crop_bboxes]: [xmin], [ymin], [crop_width], [crop_height]
    stacked as float64 and cast to int64. *)
Definition crop_row (center_x center_y : float) (crop_width crop_height : T)
  : box Z :=
  let xmin := PrimFloat.sub center_x (np_ceil (div2 crop_width)) in
  let ymin := PrimFloat.sub center_y (np_ceil (div2 crop_height)) in
  Box (float_to_int64 xmin) (float_to_int64 ymin)
      (float_to_int64 (as_float64 crop_width))
      (float_to_int64 (as_float64 crop_height)).

Definition get_center_crop_bbox (center_bboxes_in : bbox_input T)
    (im_width im_height : option pynum) (debug : bool)
  : result (list (box Z)) :=
  np_center_bboxes <- safe_center_bbox center_bboxes_in debug ;;
  match np_center_bboxes with
  | Centers4 rows =>
      Ok (map (fun r => crop_row (as_float64 (c0 r)) (as_float64 (c1 r))
                                 (c2 r) (c3 r)) rows)
  | Centers2 rows =>
      _ <- py_assert debug
             (match im_width, im_height with
              | Some _, Some _ => true
              | _, _ => false
              end)
             "the image shape should be known when center is not provided" ;;
      match im_width, im_height with
      | Some w, Some h =>
          let center_x := py_ceil (py_div2 w) in
          let center_y := py_ceil (py_div2 h) in
          Ok (map (fun r => crop_row center_x center_y (fst r) (snd r)) rows)
      | _, _ =>
          Raise (TypeError "unsupported operand type(s) for /: 'NoneType' and 'int'")
      end
  end.

End CenterCrop.

(** What the specification writes for the two-element case, in exact
    arithmetic on integer sizes: center ceil(W/2), ceil(H/2), top-left
    center - ceil(crop/2). *)
Definition ceil_half (n : Z) : Z := ((n + 1) / 2)%Z.

Definition center_crop_spec (crop_w crop_h W H : Z) : box Z :=
  Box (ceil_half W - ceil_half crop_w)%Z (ceil_half H - ceil_half crop_h)%Z
      crop_w crop_h.

(** ** Box enlargement *)

(** Python's builtin [max(a, b)] on two arrays: [b] when [b > a] is true,
    [a] otherwise.  [b > a] is an array of booleans, and its truth value
    exists for at most one element. *)
Definition py_max (a b : list float) : result (list float) :=
  match map (fun p => PrimFloat.ltb (fst p) (snd p)) (combine a b) with
  | [] => Ok a
  | [t] => Ok (if t then b else a)
  | _ :: _ :: _ =>
      Raise (ValueError
        "The truth value of an array with more than one element is ambiguous. Use a.any() or a.all()")
  end.

(** [bbox[:, 0] -= width / 2.0], [bbox[:, 2] += width / 2.0],
    [bbox[:, 3] += height / 2.0], [bbox[:, 1] -= height / 2.0] on one row. *)
Definition enlarge_row (b : box float) (width height : float) : box float :=
  Box (PrimFloat.sub (c0 b) (PrimFloat.div width 2))
      (PrimFloat.sub (c1 b) (PrimFloat.div height 2))
      (PrimFloat.add (c2 b) (PrimFloat.div width 2))
      (PrimFloat.add (c3 b) (PrimFloat.div height 2)).

Fixpoint enlarge_rows (bbox : list (box float)) (width height : list float)
  : list (box float) :=
  match bbox, width, height with
  | b :: bbox', w :: width', h :: height' =>
      enlarge_row b w h :: enlarge_rows bbox' width' height'
  | _, _, _ => []
  end.

(** The values [bbox_enlarge] leaves in its array.  The array is float64:
    the in-place [-=] of a float array needs one. *)
Definition bbox_enlarge (bbox : list (box float)) (ratio : float)
    (width_ratio height_ratio : option float) (min_length : float)
    (min_width min_height : option float) (debug : bool)
  : result (list (box float)) :=
  _ <- py_assert debug (bboxcheck_TLBR bbox)
         "the input bounding box should be TLBR format" ;;
  let cur_width := map (fun b => PrimFloat.sub (c2 b) (c0 b)) bbox in
  let cur_height := map (fun b => PrimFloat.sub (c3 b) (c1 b)) bbox in
  let '(width, height) :=
    match width_ratio, height_ratio with
    | Some wr, Some hr =>
        (map (fun w => PrimFloat.mul w wr) cur_width,
         map (fun h => PrimFloat.mul h hr) cur_height)
    | _, _ =>
        (map (fun w => PrimFloat.mul w ratio) cur_width,
         map (fun h => PrimFloat.mul h ratio) cur_height)
    end in
  let '(lo_w, lo_h) :=
    match min_height, min_width with
    | Some mh, Some mw => (mw, mh)
    | _, _ => (min_length, min_length)
    end in
  width <- py_max width (map (fun c => PrimFloat.sub lo_w c) cur_width) ;;
  height <- py_max height (map (fun c => PrimFloat.sub lo_h c) cur_height) ;;
  Ok (enlarge_rows bbox width height).

(** ** Arrays as objects: the store

    An array argument is a reference.  A store holds the arrays allocated
    so far; a location is the position of an array in it.  The functions
    that follow are the ones of the module again, statement by statement,
    with the allocations and the column assignments made explicit. *)

Definition loc : Type := nat.

Definition store (T : Type) : Type := list (list (box T)).

Inductive col : Type := Col0 | Col1 | Col2 | Col3.

Definition getc {T : Type} (j : col) (b : box T) : T :=
  match j with
  | Col0 => c0 b
  | Col1 => c1 b
  | Col2 => c2 b
  | Col3 => c3 b
  end.

Definition setc {T : Type} (j : col) (v : T) (b : box T) : box T :=
  match j with
  | Col0 => Box v (c1 b) (c2 b) (c3 b)
  | Col1 => Box (c0 b) v (c2 b) (c3 b)
  | Col2 => Box (c0 b) (c1 b) v (c3 b)
  | Col3 => Box (c0 b) (c1 b) (c2 b) v
  end.

Fixpoint setc_rows {T : Type} (j : col) (vs : list T) (a : list (box T))
  : list (box T) :=
  match vs, a with
  | v :: vs', b :: a' => setc j v b :: setc_rows j vs' a'
  | _, _ => a
  end.

Fixpoint zip_with {A B C : Type} (f : A -> B -> C) (l : list A) (l' : list B)
  : list C :=
  match l, l' with
  | x :: l1, y :: l1' => f x y :: zip_with f l1 l1'
  | _, _ => []
  end.

Fixpoint update {A : Type} (s : list A) (l : nat) (a : A) : list A :=
  match s, l with
  | [] , _ => []
  | _ :: s', O => a :: s'
  | x :: s', S l' => x :: update s' l' a
  end.

Section Store.

Context {T : Type} `{Dtype T}.

Definition read (s : store T) (l : loc) : result (list (box T)) :=
  match nth_error s l with
  | Some a => Ok a
  | None => Raise (TypeError "not an array")
  end.




(** [a[:, j] = vs] *)
Definition assign_column (s : store T) (l : loc) (j : col) (vs : list T)
  : result (store T) :=
  a <- read s l ;;
  if Nat.eqb (List.length vs) (List.length a) then Ok (update s l (setc_rows j vs a))
  else Raise (ValueError "could not broadcast input array").




Variable isinteger : T -> bool.


End Store.


(** ** Regression targets: encode and decode

    [bbox_transform] and [bbox_transform_inv] compute with [np.log] and
    [np.exp].  They are embedded over the real numbers: the arithmetic is
    exact, and rounding is not part of this model.  Where numpy would
    produce an infinity or a NaN (a division by zero, the logarithm of a
    number that is not positive; by default a RuntimeWarning), there is no
    real number to return and the embedding stops with
    [FloatingPointError]. *)

Module Regression.

Local Open Scope R_scope.

(** A 2-d array: [shape = (length (mrows m), ncols m)]. *)
Record matrix : Type := Matrix { ncols : nat; mrows : list (list R) }.

Definition nrows (m : matrix) : nat := List.length (mrows m).

Fixpoint mapM {A B : Type} (f : A -> result B) (l : list A) : result (list B) :=
  match l with
  | [] => Ok []
  | x :: l' => y <- f x ;; ys <- mapM f l' ;; Ok (y :: ys)
  end.

Fixpoint zipM {A B C : Type} (f : A -> B -> result C) (a : list A) (b : list B)
  : result (list C) :=
  match a, b with
  | x :: a', y :: b' => z <- f x y ;; zs <- zipM f a' b' ;; Ok (z :: zs)
  | _, _ => Ok []
  end.

(** An elementwise operation on two 1-d arrays, with numpy's broadcasting:
    equal lengths, or one of the two has a single element. *)
Definition bcast2 {A B C : Type} (f : A -> B -> result C)
    (a : list A) (b : list B) : result (list C) :=
  if Nat.eqb (List.length a) (List.length b) then zipM f a b
  else
    match a, b with
    | [x], _ => mapM (f x) b
    | _, [y] => mapM (fun x => f x y) a
    | _, _ => Raise (ValueError "operands could not be broadcast together")
    end.

Definition np_div (x y : R) : result R :=
  if Req_dec_T y 0 then Raise (FloatingPointError "divide by zero encountered")
  else Ok (x / y).

Definition np_log (x : R) : result R :=
  if Rlt_dec 0 x then Ok (ln x)
  else Raise (FloatingPointError "invalid value encountered in log").

(** Width, height and center of a row, with the inclusive-pixel width
    [x2 - x1 + 1.0]. *)
Record geometry : Type :=
  Geometry { g_width : R; g_height : R; g_ctr_x : R; g_ctr_y : R }.

Definition geometry_of (row : list R) : geometry :=
  let widths := nth 2 row 0 - nth 0 row 0 + 1.0 in
  let heights := nth 3 row 0 - nth 1 row 0 + 1.0 in
  Geometry widths heights
           (nth 0 row 0 + 0.5 * widths) (nth 1 row 0 + 0.5 * heights).

Fixpoint vstack4_transpose (a b c d : list R) : list (list R) :=
  match a, b, c, d with
  | x :: a', y :: b', z :: c', t :: d' =>
      [x; y; z; t] :: vstack4_transpose a' b' c' d'
  | _, _, _, _ => []
  end.

Definition bbox_transform (ex_rois gt_rois : matrix) : result matrix :=
  if Nat.ltb (ncols ex_rois) 4 then Raise (IndexError "index out of bounds")
  else if Nat.ltb (ncols gt_rois) 4 then Raise (IndexError "index out of bounds")
  else
    let ex := map geometry_of (mrows ex_rois) in
    let gt := map geometry_of (mrows gt_rois) in
    targets_dx <-
      bcast2 (fun g e => np_div (g_ctr_x g - g_ctr_x e) (g_width e)) gt ex ;;
    targets_dy <-
      bcast2 (fun g e => np_div (g_ctr_y g - g_ctr_y e) (g_height e)) gt ex ;;
    targets_dw <-
      bcast2 (fun g e => q <- np_div (g_width g) (g_width e) ;; np_log q) gt ex ;;
    targets_dh <-
      bcast2 (fun g e => q <- np_div (g_height g) (g_height e) ;; np_log q) gt ex ;;
    Ok (Matrix 4 (vstack4_transpose targets_dx targets_dy targets_dw targets_dh)).

(** One row of [pred_boxes]: the columns go in groups of four,
    [dx = deltas[:, 0::4]], [dy = deltas[:, 1::4]], [dw = deltas[:, 2::4]],
    [dh = deltas[:, 3::4]]. *)
Fixpoint decode_row (b : geometry) (deltas : list R) : list R :=
  match deltas with
  | dx :: dy :: dw :: dh :: deltas' =>
      let pred_ctr_x := dx * g_width b + g_ctr_x b in
      let pred_ctr_y := dy * g_height b + g_ctr_y b in
      let pred_w := exp dw * g_width b in
      let pred_h := exp dh * g_height b in
      (pred_ctr_x - 0.5 * pred_w) :: (pred_ctr_y - 0.5 * pred_h)
      :: (pred_ctr_x + 0.5 * pred_w) :: (pred_ctr_y + 0.5 * pred_h)
      :: decode_row b deltas'
  | _ => []
  end.

(** With a number of columns that is not a multiple of four the four
    strided slices differ in width, and one of the assignments into
    [pred_boxes] cannot be broadcast. *)
Definition bbox_transform_inv (boxes deltas : matrix) (debug : bool)
  : result matrix :=
  if Nat.eqb (nrows boxes) 0 then Ok (Matrix (ncols deltas) [])
  else if Nat.ltb (ncols boxes) 4 then Raise (IndexError "index out of bounds")
  else
    let geo := map geometry_of (mrows boxes) in
    if debug && Nat.eqb (nrows deltas) 0
    then Raise (IndexError "index 0 is out of bounds for axis 0 with size 0")
    else
      pred <- bcast2 (fun d b => Ok (decode_row b d)) (mrows deltas) geo ;;
      if negb (Nat.eqb (Nat.modulo (ncols deltas) 4) 0)
      then Raise (ValueError "could not broadcast input array")
      else if Nat.eqb (List.length pred) (nrows deltas)
      then Ok (Matrix (ncols deltas) pred)
      else Raise (ValueError "could not broadcast input array").

(** Within the tolerance of the specification. *)
Definition close (x y : R) : Prop := Rabs (x - y) <= 1e-5.

(** Anchors with positive width and height, targets likewise (a TLBR box
    has x1 <= x2, so its inclusive width is at least 1). *)
Definition positive_size (row : list R) : Prop :=
  0 < g_width (geometry_of row) /\ 0 < g_height (geometry_of row).

Definition pos_geo (g : geometry) : Prop := 0 < g_width g /\ 0 < g_height g.

(** The targets of one pair of rows. *)
Definition encode_row (g e : geometry) : list R :=
  [(g_ctr_x g - g_ctr_x e) / g_width e;
   (g_ctr_y g - g_ctr_y e) / g_height e;
   ln (g_width g / g_width e);
   ln (g_height g / g_height e)].

(** A box with its bottom-right corner moved by one pixel. *)
Definition shifted (t : list R) : list R :=
  [nth 0 t 0; nth 1 t 0; nth 2 t 0 + 1; nth 3 t 0 + 1].

End Regression.

(** ** The predicates of the specification *)

Section SpecPredicates.

Context {T : Type} `{Dtype T}.

(** x1 <= x2 and y1 <= y2: what [bboxcheck_TLBR] asks of a row. *)
Definition valid_row (b : box T) : bool :=
  le (c0 b) (c2 b) && le (c1 b) (c3 b).

(** A coordinate lies in [[0, bound]]. *)
Definition within (bound x : T) : bool := le zero x && le x bound.

(** Every x lies in [[0, W]] and every y in [[0, H]]. *)
Definition in_image (W Ht : T) (b : box T) : bool :=
  within W (c0 b) && within Ht (c1 b) && within W (c2 b) && within Ht (c3 b).

(** A box [b] entirely on one side of the image has the clipped box [c]
    collapsed onto that boundary: two equal coordinates, zero area. *)
Definition collapses (W Ht : T) (b c : box T) : Prop :=
  (le (c2 b) zero = true ->
     numeq (c0 c) zero = true /\ numeq (c2 c) zero = true) /\
  (le W (c0 b) = true ->
     numeq (c0 c) W = true /\ numeq (c2 c) W = true) /\
  (le (c3 b) zero = true ->
     numeq (c1 c) zero = true /\ numeq (c3 c) zero = true) /\
  (le Ht (c1 b) = true ->
     numeq (c1 c) Ht = true /\ numeq (c3 c) Ht = true).

(** The same numbers in the four fields. *)
Definition box_numeq (a b : box T) : bool :=
  numeq (c0 a) (c0 b) && numeq (c1 a) (c1 b) &&
  numeq (c2 a) (c2 b) && numeq (c3 a) (c3 b).

(** TLBR to TLWH and back. *)
Definition roundtrip_TLBR (bboxes_in : bbox_input T) (debug : bool)
  : result (list (box T)) :=
  t <- bbox_TLBR2TLWH bboxes_in debug ;;
  bbox_TLWH2TLBR (ndarray t) debug.

End SpecPredicates.

(** A row of int64 values whose width and height are representable. *)
Definition int64_box (b : box Z) : Prop :=
  in_int64 (c0 b) /\ in_int64 (c1 b) /\ in_int64 (c2 b) /\ in_int64 (c3 b) /\
  (c2 b - c0 b <= int64_max)%Z /\ (c3 b - c1 b <= int64_max)%Z.

(** The size check of the two clipping functions failed. *)
Definition size_error {A : Type} (r : result A) : Prop :=
  r = Raise (AssertionError "the image width and height are not correct").

(** ** Points and boxes *)

(** A 2-d array of any shape: [shape = (length (rows2 a), shape1 a)]. *)
Record array2 (T : Type) : Type := Array2 { shape1 : nat; rows2 : list (list T) }.

Arguments Array2 {T} shape1 rows2.

Definition shape0 {T : Type} (a : array2 T) : nat := List.length (rows2 a).

(** Modelled from the spec: [is2dptsarray] and [is2dptsarray_occlusion] of
    [xinshuo_miscellaneous] are not in src/.  The spec's point set is "an
    ordered sequence of 2D (optionally +occlusion-flag) coordinates"; the
    message at their use: "the input points should have shape: 2 or 3 x
    num_pts". *)
Definition is2dptsarray {T : Type} (pts : array2 T) : bool :=
  Nat.eqb (shape0 pts) 2.

Definition is2dptsarray_occlusion {T : Type} (pts : array2 T) : bool :=
  Nat.eqb (shape0 pts) 3.

Definition str_of_nat (n : nat) : string :=
  NilEmpty.string_of_uint (Nat.to_uint n).

(** ['... vs %d x %s' % (pts.shape[0], pts.shape[1])] *)
Definition pts_shape_msg {T : Type} (pts : array2 T) : string :=
  String.append "the input points should have shape: 2 or 3 x num_pts vs "
    (String.append (str_of_nat (shape0 pts))
       (String.append " x " (str_of_nat (shape1 pts)))).

(** [a[i]] on a sequence of length n. *)
Definition getitem {A : Type} (a : list A) (i : nat) : result A :=
  match nth_error a i with
  | Some x => Ok x
  | None =>
      Raise (IndexError
        (String.append "index "
           (String.append (str_of_nat i)
              (String.append " is out of bounds for axis 0 with size "
                 (str_of_nat (List.length a))))))
  end.

Section Points.

Context {T : Type} `{Dtype T}.

(** [isbbox] of [xinshuo_miscellaneous] is not in src/: the test it makes
    on the coerced box is a parameter of the development. *)
Variable isbbox : list (box T) -> bool.

(** [pts_out = pts_array.copy()], then rows 0 and 1 are overwritten with
    the shifted rows; a row of occlusion flags stays as it is.  The points
    and the box have the same dtype. *)
Definition shift_pts (op : T -> T -> T) (pts_array : array2 T)
    (np_bboxes : list (box T)) : result (array2 T) :=
  let pts_out := rows2 pts_array in
  r0 <- getitem (rows2 pts_array) 0 ;;
  b <- getitem np_bboxes 0 ;;
  let pts_out := update pts_out 0 (map (fun x => op x (c0 b)) r0) in
  r1 <- getitem (rows2 pts_array) 1 ;;
  b <- getitem np_bboxes 0 ;;
  let pts_out := update pts_out 1 (map (fun y => op y (c1 b)) r1) in
  Ok (Array2 (shape1 pts_array) pts_out).

Definition pts_conversion_bbox (pts_array : array2 T)
    (bboxes_in : bbox_input T) (debug : bool) : result (array2 T) :=
  np_bboxes <- safe_bbox bboxes_in debug ;;
  _ <- py_assert debug (is2dptsarray pts_array || is2dptsarray_occlusion pts_array)
         (pts_shape_msg pts_array) ;;
  _ <- py_assert debug (isbbox np_bboxes) "the input bounding box is not correct" ;;
  shift_pts sub pts_array np_bboxes.

Definition pts_conversion_back_bbox (pts_array : array2 T)
    (bboxes_in : bbox_input T) (debug : bool) : result (array2 T) :=
  np_bboxes <- safe_bbox bboxes_in debug ;;
  _ <- py_assert debug (is2dptsarray pts_array || is2dptsarray_occlusion pts_array)
         (pts_shape_msg pts_array) ;;
  _ <- py_assert debug (isbbox np_bboxes) "the input bounding box is not correct" ;;
  shift_pts add pts_array np_bboxes.

(** [np.min] and [np.max] of a 1-d array: the reduction with [np.minimum]
    and [np.maximum], which has no value on an empty array. *)
Definition np_min (a : list T) : result T :=
  match a with
  | [] => Raise (ValueError
            "zero-size array to reduction operation minimum which has no identity")
  | x :: a' => Ok (fold_left np_minimum a' x)
  end.

Definition np_max (a : list T) : result T :=
  match a with
  | [] => Raise (ValueError
            "zero-size array to reduction operation maximum which has no identity")
  | x :: a' => Ok (fold_left np_maximum a' x)
  end.

End Points.

(** The binary32 value nearest to a binary64 value (the store into an array
    of dtype float32), kept as the binary64 value equal to it. *)
Definition to_float32 (f : float) : float :=
  match Prim2SF f with
  | S754_finite s m e => SF2Prim (binary_normalize 24 128 (signed s m) e s)
  | _ => f
  end.

(** [pts2bbox] on a float64 array of points, with [vis=False] (the other
    branch only plots). *)
Definition pts2bbox (pts : array2 float) (debug : bool)
  : result (list (box float)) :=
  _ <- py_assert debug (is2dptsarray pts || is2dptsarray_occlusion pts)
         (pts_shape_msg pts) ;;
  _ <- py_assert debug (Nat.leb 2 (shape1 pts))
         "number of points should be larger or equal than 2" ;;
  xs <- getitem (rows2 pts) 0 ;;
  x_min <- np_min xs ;;
  ys <- getitem (rows2 pts) 1 ;;
  y_min <- np_min ys ;;
  xs <- getitem (rows2 pts) 0 ;;
  x_max <- np_max xs ;;
  ys <- getitem (rows2 pts) 1 ;;
  y_max <- np_max ys ;;
  Ok [Box (to_float32 x_min) (to_float32 y_min)
          (to_float32 x_max) (to_float32 y_max)].


(** A value that a float32 array holds without rounding. *)
Definition float32_exact (f : float) : Prop := to_float32 f = f.

(** ** Heaps of arrays of any kind

    The store of N x 4 arrays above has one kind of array.  The functions
    that follow take and return arrays of other shapes and dtypes: their
    heap is a list of cells of a type [C] that the function fixes. *)





(** ** Inverse rotation of the two corners of a box

    [bbox_rotation_inv] computes with [math.cos] and [math.sin]: like the
    regression pair it is embedded over the real numbers.  The box is a 1-d
    array of int64 or of float values, the image shape a tuple of Python
    integers [(height, width)]. *)

Module Rotation.

Import Regression.

Local Open Scope R_scope.

Inductive box1d : Type :=
| IntBox (v : list Z)
| FloatBox (v : list R).

(** [bbox_in.size] *)
Definition size1d (b : box1d) : nat :=
  match b with
  | IntBox v => List.length v
  | FloatBox v => List.length v
  end.

(** [math.radians] *)
Definition rad (d : R) : R := d * PI / 180.

(** [(x - size/2)/size*2] on a float entry of the box: [size/2] is between
    two Python integers, the floor division of Python 2; the division by
    [size] has a float on its left. *)
Definition normalize_float (x : R) (size : Z) : result R :=
  q <- np_div (x - IZR (size / 2)) (IZR size) ;;
  Ok (q * 2).

(** The same expression on an int64 entry: every step stays in int64, and
    [/] is the floor division again (numpy gives 0 for a zero divisor, as
    [Z.div] does). *)
Definition normalize_int (x : Z) (size : Z) : Z :=
  wrap64 (wrap64 (wrap64 (x - size / 2) / size) * 2).

(** [(bbox_in[i] - size/2)/size*2], as it enters the float array
    [coor_in]. *)
Definition normalize (bbox_in : box1d) (i : nat) (size : Z) : result R :=
  match bbox_in with
  | IntBox v => x <- getitem v i ;; Ok (IZR (normalize_int x size))
  | FloatBox v => x <- getitem v i ;; normalize_float x size
  end.

(** [c * size/2 + size/2] *)
Definition denormalize (c : R) (size : Z) : R :=
  c * IZR size / 2 + IZR (size / 2).

(** [np.dot(v, affine.transpose())] for a 3-vector and a 2 x 3 matrix. *)
Definition dot_affine (v : R * R * R) (affine : (R * R * R) * (R * R * R))
  : R * R :=
  let '(v0, v1, v2) := v in
  let '((a00, a01, a02), (a10, a11, a12)) := affine in
  (v0 * a00 + v1 * a01 + v2 * a02, v0 * a10 + v1 * a11 + v2 * a12).

Definition bbox_rotation_inv (bbox_in : box1d) (angle_in_degree : R)
    (image_shape : Z * Z) (debug : bool) : result (list R) :=
  _ <- py_assert debug (Nat.eqb (size1d bbox_in) 4) "box is not correct" ;;
  let im_width := snd image_shape in
  let im_height := fst image_shape in
  tl_x <- normalize bbox_in 0 im_width ;;
  tl_y <- normalize bbox_in 1 im_height ;;
  let coor_in_tl := (tl_x, tl_y, 1) in
  br_x <- normalize bbox_in 2 im_width ;;
  br_y <- normalize bbox_in 3 im_height ;;
  let coor_in_br := (br_x, br_y, 1) in
  let affine :=
    ((cos (rad angle_in_degree), sin (rad angle_in_degree), 0),
     (- sin (rad angle_in_degree), cos (rad angle_in_degree), 0)) in
  let coor_out_tl := dot_affine coor_in_tl affine in
  let coor_out_br := dot_affine coor_in_br affine in
  Ok [denormalize (fst coor_out_tl) im_width;
      denormalize (snd coor_out_tl) im_height;
      denormalize (fst coor_out_br) im_width;
      denormalize (snd coor_out_br) im_height].

(** What [bbox_rotation_inv] returns for the normalized corners
    [(n1, n2)] and [(n3, n4)]. *)
Definition rotated (n1 n2 n3 n4 : R) (angle_in_degree : R) (image_shape : Z * Z)
  : list R :=
  let c := cos (rad angle_in_degree) in
  let s := sin (rad angle_in_degree) in
  [denormalize (n1 * c + n2 * s + 1 * 0) (snd image_shape);
   denormalize (n1 * - s + n2 * c + 1 * 0) (fst image_shape);
   denormalize (n3 * c + n4 * s + 1 * 0) (snd image_shape);
   denormalize (n3 * - s + n4 * c + 1 * 0) (fst image_shape)].




(** *** The batch rotation, on the heap *)













End Rotation.

(** ** The other box operations, on the store and on heaps

    Each function reads its arguments where they are, and writes only into
    arrays it has made itself: [np.zeros], [np.zeros_like], [.copy()], or
    the value of an expression. *)



Section PointsOnTheHeap.

Context {T : Type} `{Dtype T}.

Variable isbbox : list (box T) -> bool.





End PointsOnTheHeap.







(** ** Further predicates of the theorems *)

(** A TLWH row of int64 values, with a width and height that are not
    negative, whose right and bottom edges are representable. *)
Definition int64_box_TLWH (b : box Z) : Prop :=
  in_int64 (c0 b) /\ in_int64 (c1 b) /\
  (0 <= c2 b <= int64_max)%Z /\ (0 <= c3 b <= int64_max)%Z /\
  (c0 b + c2 b <= int64_max)%Z /\ (c1 b + c3 b <= int64_max)%Z.

(** TLWH to TLBR and back. *)
Definition roundtrip_TLWH {T : Type} `{Dtype T} (bboxes_in : bbox_input T)
    (debug : bool) : result (list (box T)) :=
  t <- bbox_TLWH2TLBR bboxes_in debug ;;
  bbox_TLBR2TLWH (ndarray t) debug.


(** A TLWH box [c] is the box [b] with its left/right and top/bottom edges
    clamped into the image. *)
Definition clipped_TLWH (W Ht : Z) (b c : box Z) : Prop :=
  (c0 c = Z.max (Z.min (c0 b) W) 0 /\
   c0 c + c2 c = Z.max (Z.min (c0 b + c2 b) W) 0 /\
   c1 c = Z.max (Z.min (c1 b) Ht) 0 /\
   c1 c + c3 c = Z.max (Z.min (c1 b + c3 b) Ht) 0)%Z.

(** A TLWH box that lies in the image. *)
Definition inside_TLWH (W Ht : Z) (c : box Z) : Prop :=
  (0 <= c0 c /\ 0 <= c2 c /\ c0 c + c2 c <= W /\
   0 <= c1 c /\ 0 <= c3 c /\ c1 c + c3 c <= Ht)%Z.

(** A box moved by [(tx, ty)]. *)
Definition translate (tx ty : R) (row : list R) : list R :=
  [nth 0 row 0 + tx; nth 1 row 0 + ty; nth 2 row 0 + tx; nth 3 row 0 + ty]%R.

(** The round trip of a row is exact: in the arithmetic of the dtype
    (x2 - x1) + x1 == x2 and (y2 - y1) + y1 == y2. *)
Definition roundtrip_exact_row {T : Type} `{Dtype T} (b : box T) : bool :=
  numeq (add (sub (c2 b) (c0 b)) (c0 b)) (c2 b) &&
  numeq (add (sub (c3 b) (c1 b)) (c1 b)) (c3 b).

(** Two matrices hold the same numbers. *)
Definition matrix_numeq {T : Type} `{Dtype T} (r m : list (box T)) : Prop :=
  Forall2 (fun a b => box_numeq a b = true) r m.
(** ** The two dtypes are ordered *)

#[export] Instance int64_order : DtypeOrder Z.
Proof.
  split; simpl; intros.
  - split; reflexivity.
  - destruct (Z.leb_spec a b); [left; reflexivity | right; apply Z.leb_le; lia].
  - apply Z.leb_le. apply Z.leb_le in H, H0. lia.
Qed.

Lemma SFleb_key (x y : spec_float) :
  SFleb x y = true <->
  match sfkey x, sfkey y with
  | Some k, Some k' => lexle k k'
  | _, _ => False
  end.
Proof.
  unfold SFleb.
  destruct x as [sx|sx| |sx mx ex], y as [sy|sy| |sy my ey]; simpl;
    try destruct sx; try destruct sy; simpl;
    try (split; [intros; lia | intros; try reflexivity; lia]);
    try (split; [discriminate | intros; lia]);
    try (split; [discriminate | tauto]).
  - destruct (Z.compare_spec ex ey); simpl.
    + change (Pos.compare_cont Eq mx my) with (Pos.compare mx my).
      destruct (Pos.compare_spec mx my); simpl; split; intros;
        try reflexivity; try discriminate; lia.
    + split; intros; try reflexivity; try discriminate; lia.
    + split; intros; try reflexivity; try discriminate; lia.
  - destruct (Z.compare_spec ex ey); simpl.
    + change (Pos.compare_cont Eq mx my) with (Pos.compare mx my).
      destruct (Pos.compare_spec mx my); simpl; split; intros;
        try reflexivity; try discriminate; lia.
    + split; intros; try reflexivity; try discriminate; lia.
    + split; intros; try reflexivity; try discriminate; lia.
Qed.

Lemma SFeqb_refl_key (x : spec_float) : SFeqb x x = true <-> sfkey x <> None.
Proof.
  unfold SFeqb.
  destruct x as [sx|sx| |sx mx ex]; simpl; try destruct sx; simpl;
    try (split; [discriminate | congruence]);
    try (split; [congruence | reflexivity]).
  - rewrite Z.compare_refl.
    change (Pos.compare_cont Eq mx mx) with (Pos.compare mx mx).
    rewrite Pos.compare_refl. simpl. split; [congruence | reflexivity].
  - rewrite Z.compare_refl.
    change (Pos.compare_cont Eq mx mx) with (Pos.compare mx mx).
    rewrite Pos.compare_refl. simpl. split; [congruence | reflexivity].
Qed.

Lemma is_nan_key (f : float) : PrimFloat.is_nan f = false <-> sfkey (Prim2SF f) <> None.
Proof.
  unfold PrimFloat.is_nan. rewrite FloatAxioms.eqb_spec, negb_false_iff.
  apply SFeqb_refl_key.
Qed.

Lemma leb_key (a b : float) :
  PrimFloat.leb a b = true <->
  match sfkey (Prim2SF a), sfkey (Prim2SF b) with
  | Some k, Some k' => lexle k k'
  | _, _ => False
  end.
Proof. rewrite FloatAxioms.leb_spec. apply SFleb_key. Qed.

#[export] Instance float64_order : DtypeOrder float.
Proof.
  split; simpl; intros a b.
  - rewrite leb_key, !is_nan_key.
    destruct (sfkey (Prim2SF a)), (sfkey (Prim2SF b)); try tauto.
    intros _. split; discriminate.
  - rewrite !is_nan_key, !leb_key.
    destruct (sfkey (Prim2SF a)) as [[[a1 a2] a3]|],
             (sfkey (Prim2SF b)) as [[[b1 b2] b3]|]; try congruence.
    intros _ _. unfold lexle. lia.
  - intros c. rewrite !leb_key.
    destruct (sfkey (Prim2SF a)) as [[[a1 a2] a3]|],
             (sfkey (Prim2SF b)) as [[[b1 b2] b3]|],
             (sfkey (Prim2SF c)) as [[[d1 d2] d3]|]; try tauto.
    unfold lexle. lia.
Qed.

(** ** Facts on clamping, for any ordered dtype *)

Section ClampFacts.

Context {T : Type} {D : Dtype T} {O : DtypeOrder T}.

Lemma le_refl (a : T) : isnan a = false -> le a a = true.
Proof. intros Ha. destruct (le_total a a Ha Ha); assumption. Qed.

Lemma le_false_ge (a b : T) :
  isnan a = false -> isnan b = false -> le a b = false -> le b a = true.
Proof.
  intros Ha Hb Hab. destruct (le_total a b Ha Hb) as [E|E]; [congruence | exact E].
Qed.

Lemma np_minimum_cases (x w : T) :
  isnan x = false -> isnan w = false ->
  (le x w = true /\ np_minimum x w = x) \/
  (le x w = false /\ le w x = true /\ np_minimum x w = w).
Proof.
  intros Hx Hw. unfold np_minimum. rewrite Hx, orb_false_r.
  destruct (le x w) eqn:E; [left; auto | right].
  split; [reflexivity | split; [apply le_false_ge; assumption | reflexivity]].
Qed.

Lemma np_maximum_cases (a z : T) :
  isnan a = false -> isnan z = false ->
  (le z a = true /\ np_maximum a z = a) \/
  (le z a = false /\ le a z = true /\ np_maximum a z = z).
Proof.
  intros Ha Hz. unfold np_maximum. rewrite Ha, orb_false_r.
  destruct (le z a) eqn:E; [left; auto | right].
  split; [reflexivity | split; [apply le_false_ge; assumption | reflexivity]].
Qed.

Lemma np_minimum_notnan (x w : T) :
  isnan x = false -> isnan w = false -> isnan (np_minimum x w) = false.
Proof.
  intros Hx Hw.
  destruct (np_minimum_cases x w Hx Hw) as [[_ E]|[_ [_ E]]]; rewrite E; assumption.
Qed.

Lemma clamp_range (w x : T) :
  le zero w = true -> isnan x = false ->
  le zero (clamp w x) = true /\ le (clamp w x) w = true.
Proof.
  intros Hw Hx. destruct (le_isnan _ _ Hw) as [Hz Hwn].
  unfold clamp.
  assert (Hm : le (np_minimum x w) w = true).
  { destruct (np_minimum_cases x w Hx Hwn) as [[L E]|[_ [_ E]]]; rewrite E;
      [exact L | apply le_refl; exact Hwn]. }
  pose proof (np_minimum_notnan x w Hx Hwn) as Hn.
  destruct (np_maximum_cases (np_minimum x w) zero Hn Hz) as [[L E]|[_ [_ E]]];
    rewrite E.
  - split; assumption.
  - split; [apply le_refl; exact Hz | exact Hw].
Qed.

Lemma np_minimum_mono (w x1 x2 : T) :
  isnan w = false -> le x1 x2 = true ->
  le (np_minimum x1 w) (np_minimum x2 w) = true.
Proof.
  intros Hw H12. destruct (le_isnan _ _ H12) as [H1 H2].
  destruct (np_minimum_cases x1 w H1 Hw) as [[L1 E1]|[_ [L1 E1]]];
    destruct (np_minimum_cases x2 w H2 Hw) as [[L2 E2]|[_ [L2 E2]]];
    rewrite E1, E2.
  - exact H12.
  - exact L1.
  - apply le_trans with x1; assumption.
  - apply le_refl; exact Hw.
Qed.

Lemma np_maximum_mono (z a1 a2 : T) :
  isnan z = false -> le a1 a2 = true ->
  le (np_maximum a1 z) (np_maximum a2 z) = true.
Proof.
  intros Hz H12. destruct (le_isnan _ _ H12) as [H1 H2].
  destruct (np_maximum_cases a1 z H1 Hz) as [[L1 E1]|[_ [L1 E1]]];
    destruct (np_maximum_cases a2 z H2 Hz) as [[L2 E2]|[_ [L2 E2]]];
    rewrite E1, E2.
  - exact H12.
  - apply le_trans with a2; assumption.
  - exact L2.
  - apply le_refl; exact Hz.
Qed.

(** Each coordinate goes through the same monotone map. *)
Lemma clamp_mono (w x1 x2 : T) :
  le zero w = true -> le x1 x2 = true ->
  le (clamp w x1) (clamp w x2) = true.
Proof.
  intros Hw H12. destruct (le_isnan _ _ Hw) as [Hz Hwn].
  unfold clamp. apply np_maximum_mono; [exact Hz |].
  apply np_minimum_mono; assumption.
Qed.

(** Left of (above) the image: the coordinate lands on the boundary 0. *)
Lemma clamp_low (w x : T) :
  le zero w = true -> le x zero = true -> numeq (clamp w x) zero = true.
Proof.
  intros Hw Hx. destruct (le_isnan _ _ Hw) as [Hz Hwn].
  destruct (le_isnan _ _ Hx) as [Hxn _].
  unfold clamp, numeq.
  assert (E : np_minimum x w = x).
  { unfold np_minimum. rewrite (le_trans _ _ _ Hx Hw). reflexivity. }
  rewrite E.
  destruct (np_maximum_cases x zero Hxn Hz) as [[L E']|[_ [_ E']]]; rewrite E'.
  - rewrite Hx, L. reflexivity.
  - rewrite (le_refl _ Hz). reflexivity.
Qed.

(** Right of (below) the image: the coordinate lands on the boundary. *)
Lemma clamp_high (w x : T) :
  le zero w = true -> le w x = true -> numeq (clamp w x) w = true.
Proof.
  intros Hw Hx. destruct (le_isnan _ _ Hw) as [Hz Hwn].
  destruct (le_isnan _ _ Hx) as [_ Hxn].
  unfold clamp, numeq.
  assert (Hm : le (np_minimum x w) w = true /\ le w (np_minimum x w) = true).
  { destruct (np_minimum_cases x w Hxn Hwn) as [[L E]|[_ [_ E]]]; rewrite E.
    - split; assumption.
    - split; apply le_refl; exact Hwn. }
  destruct Hm as [Hm1 Hm2].
  assert (E : np_maximum (np_minimum x w) zero = np_minimum x w).
  { unfold np_maximum. rewrite (le_trans _ _ _ Hw Hm2). reflexivity. }
  rewrite E, Hm1, Hm2. reflexivity.
Qed.

End ClampFacts.

(** ** Coercion *)

Lemma rows_of_lists_ndarray {T : Type} (m : list (box T)) :
  rows_of_lists (map list_of_row m) = Some m.
Proof.
  induction m as [|b m IH]; simpl; [reflexivity |].
  rewrite IH. destruct b; reflexivity.
Qed.

(** An N x 4 array goes through [safe_bbox] unchanged. *)
Lemma safe_bbox_ndarray {T : Type} (m : list (box T)) (debug : bool) :
  safe_bbox (ndarray m) debug = Ok m.
Proof. unfold safe_bbox, ndarray. rewrite rows_of_lists_ndarray. reflexivity. Qed.

Lemma py_assert_true (debug : bool) (msg : string) :
  py_assert debug true msg = Ok tt.
Proof. destruct debug; reflexivity. Qed.

(** ** Format transform and back *)

Lemma wrap64_id (z : Z) : in_int64 z -> wrap64 z = z.
Proof.
  unfold in_int64, int64_min, int64_max, wrap64. intros Hz.
  rewrite Z.mod_small; lia.
Qed.

Lemma int64_roundtrip_row (b : box Z) :
  int64_box b -> le (c0 b) (c2 b) = true -> le (c1 b) (c3 b) = true ->
  TLBR2TLWH_row b = Box (c0 b) (c1 b) (c2 b - c0 b)%Z (c3 b - c1 b)%Z /\
  le zero (c2 (TLBR2TLWH_row b)) = true /\
  le zero (c3 (TLBR2TLWH_row b)) = true /\
  TLWH2TLBR_row (TLBR2TLWH_row b) = b.
Proof.
  intros (H0 & H1 & H2 & H3 & Hw & Hh) Lx Ly. simpl in Lx, Ly.
  apply Z.leb_le in Lx, Ly.
  assert (Ew : wrap64 (c2 b - c0 b) = (c2 b - c0 b)%Z).
  { apply wrap64_id. unfold in_int64, int64_min, int64_max in *. lia. }
  assert (Eh : wrap64 (c3 b - c1 b) = (c3 b - c1 b)%Z).
  { apply wrap64_id. unfold in_int64, int64_min, int64_max in *. lia. }
  unfold TLBR2TLWH_row, TLWH2TLBR_row. simpl. rewrite Ew, Eh.
  split; [reflexivity |].
  split; [apply Z.leb_le; lia |].
  split; [apply Z.leb_le; lia |].
  replace (c2 b - c0 b + c0 b)%Z with (c2 b) by lia.
  replace (c3 b - c1 b + c1 b)%Z with (c3 b) by lia.
  rewrite !wrap64_id by assumption. destruct b; reflexivity.
Qed.

Lemma int64_roundtrip_rows (m : list (box Z)) :
  Forall int64_box m -> bboxcheck_TLBR m = true ->
  map TLBR2TLWH_row m
    = map (fun b => Box (c0 b) (c1 b) (c2 b - c0 b)%Z (c3 b - c1 b)%Z) m /\
  bboxcheck_TLWH (map TLBR2TLWH_row m) = true /\
  map TLWH2TLBR_row (map TLBR2TLWH_row m) = m.
Proof.
  induction 1 as [|b m Hb Hm IH]; intros Hc.
  - repeat split.
  - cbn [bboxcheck_TLBR forallb] in Hc.
    apply andb_true_iff in Hc. destruct Hc as [Hb' Hc].
    apply andb_true_iff in Hb'. destruct Hb' as [Lx Ly].
    destruct (IH Hc) as (E1 & E2 & E3).
    destruct (int64_roundtrip_row Hb Lx Ly) as (R1 & R2 & R3 & R4).
    cbn [map bboxcheck_TLWH forallb].
    split; [rewrite R1, E1; reflexivity |].
    split.
    + rewrite R2, R3. exact E2.
    + rewrite R4, E3. reflexivity.
Qed.

Section RoundTrip.

Context {T : Type} {D : Dtype T} {O : DtypeOrder T}.

(** What the round trip computes on a valid matrix: under debug the
    computed widths and heights go through the TLWH check; the rows that
    come back are [x1, y1, (x2 - x1) + x1, (y2 - y1) + y1]. *)
Lemma roundtrip_TLBR_rows (b : bbox_input T) (m : list (box T)) (debug : bool) :
  safe_bbox b debug = Ok m -> bboxcheck_TLBR m = true ->
  roundtrip_TLBR b debug
  = (_ <- py_assert debug (bboxcheck_TLWH (map TLBR2TLWH_row m))
            "the input bounding box should be TLBR format" ;;
     Ok (map (fun r => TLWH2TLBR_row (TLBR2TLWH_row r)) m)).
Proof.
  intros Hs Hc. unfold roundtrip_TLBR, bbox_TLBR2TLWH. rewrite Hs. cbn [bind].
  rewrite Hc, py_assert_true. cbn [bind].
  unfold bbox_TLWH2TLBR. rewrite safe_bbox_ndarray. cbn [bind].
  rewrite map_map. reflexivity.
Qed.

Lemma roundtrip_row_numeq (r : box T) :
  le (c0 r) (c2 r) = true -> le (c1 r) (c3 r) = true ->
  box_numeq (TLWH2TLBR_row (TLBR2TLWH_row r)) r = roundtrip_exact_row r.
Proof.
  intros Lx Ly.
  destruct (le_isnan _ _ Lx) as [N0 _]. destruct (le_isnan _ _ Ly) as [N1 _].
  unfold box_numeq, roundtrip_exact_row, TLWH2TLBR_row, TLBR2TLWH_row.
  cbn [c0 c1 c2 c3].
  assert (E0 : numeq (c0 r) (c0 r) = true)
    by (unfold numeq; rewrite (le_refl _ N0); reflexivity).
  assert (E1 : numeq (c1 r) (c1 r) = true)
    by (unfold numeq; rewrite (le_refl _ N1); reflexivity).
  rewrite E0, E1. reflexivity.
Qed.

Lemma roundtrip_rows_numeq (m : list (box T)) :
  bboxcheck_TLBR m = true ->
  (matrix_numeq (map (fun r => TLWH2TLBR_row (TLBR2TLWH_row r)) m) m
   <-> forallb roundtrip_exact_row m = true).
Proof.
  unfold matrix_numeq. induction m as [|r m IH]; intros Hc.
  - split; [reflexivity | constructor].
  - cbn [bboxcheck_TLBR forallb] in Hc. apply andb_true_iff in Hc.
    destruct Hc as [Hr Hm]. apply andb_true_iff in Hr. destruct Hr as [Lx Ly].
    cbn [map forallb]. split.
    + intros F. inversion F as [|? ? ? ? Fr Fm]; subst.
      rewrite (roundtrip_row_numeq r Lx Ly) in Fr. rewrite Fr.
      apply IH; assumption.
    + intros F. apply andb_true_iff in F. destruct F as [Fr Fm].
      constructor; [rewrite (roundtrip_row_numeq r Lx Ly); exact Fr |].
      apply IH; assumption.
Qed.

End RoundTrip.

(** ** The round trip on float64 boxes at the origin *)

Lemma float_sub_zero (x : float) : PrimFloat.sub x PrimFloat.zero = x.
Proof.
  apply Prim2SF_inj. rewrite FloatAxioms.sub_spec.
  change (Prim2SF PrimFloat.zero) with (S754_zero false).
  destruct (Prim2SF x) as [s|s| |s m e]; try destruct s; reflexivity.
Qed.

Lemma float_add_zero_numeq (x : float) :
  PrimFloat.is_nan x = false ->
  numeq (PrimFloat.add x PrimFloat.zero) x = true.
Proof.
  intros Hx. destruct (Prim2SF x) as [s|s| |s m e] eqn:E.
  - rewrite <- (SF2Prim_Prim2SF x), E. destruct s; vm_compute; reflexivity.
  - assert (A : PrimFloat.add x PrimFloat.zero = x).
    { apply Prim2SF_inj. rewrite FloatAxioms.add_spec, E.
      destruct s; reflexivity. }
    rewrite A. pose proof (@le_refl float float64 float64_order x Hx) as L.
    unfold numeq. rewrite L. reflexivity.
  - exfalso. apply is_nan_key in Hx. rewrite E in Hx. apply Hx. reflexivity.
  - assert (A : PrimFloat.add x PrimFloat.zero = x).
    { apply Prim2SF_inj. rewrite FloatAxioms.add_spec, E. reflexivity. }
    rewrite A. pose proof (@le_refl float float64 float64_order x Hx) as L.
    unfold numeq. rewrite L. reflexivity.
Qed.

Lemma origin_box_exact (x2 y2 : float) :
  PrimFloat.leb PrimFloat.zero x2 = true ->
  PrimFloat.leb PrimFloat.zero y2 = true ->
  let b := Box PrimFloat.zero PrimFloat.zero x2 y2 in
  valid_row b = true /\
  le zero (c2 (TLBR2TLWH_row b)) = true /\
  le zero (c3 (TLBR2TLWH_row b)) = true /\
  roundtrip_exact_row b = true.
Proof.
  intros Lx Ly b.
  destruct (@le_isnan float float64 float64_order _ _ Lx) as [_ Nx].
  destruct (@le_isnan float float64 float64_order _ _ Ly) as [_ Ny].
  unfold valid_row, roundtrip_exact_row, TLBR2TLWH_row, b.
  cbn [c0 c1 c2 c3 sub add le zero float64].
  rewrite !float_sub_zero, Lx, Ly.
  rewrite (float_add_zero_numeq x2 Nx), (float_add_zero_numeq y2 Ny).
  repeat split.
Qed.

(** C3 (as amended): for every valid TLBR box matrix b of any dtype the
    forward conversion computes w = x2 - x1 and h = y2 - y1 in the
    arithmetic of the dtype, and the round trip, when it returns, returns
    the rows [x1, y1, (x2 - x1) + x1, (y2 - y1) + y1].  It returns a matrix
    equal to b exactly when (x2 - x1) + x1 == x2 and (y2 - y1) + y1 == y2
    hold in that arithmetic in every row and, under debug, the computed w
    and h pass the TLWH check.  This is so for every int64 box whose width
    and height are representable, for every float64 box whose top-left
    corner is 0, and for the float64 box [5, 5, 10, 10]. *)
Theorem TLBR_TLWH_roundtrip_exact :
  (forall (T : Type) (D : Dtype T) (O : DtypeOrder T)
          (bboxes_in : bbox_input T) (m : list (box T)) (debug : bool),
      safe_bbox bboxes_in debug = Ok m ->
      bboxcheck_TLBR m = true ->
      bbox_TLBR2TLWH bboxes_in debug
        = Ok (map (fun b => Box (c0 b) (c1 b) (sub (c2 b) (c0 b))
                                (sub (c3 b) (c1 b))) m) /\
      (forall r,
          roundtrip_TLBR bboxes_in debug = Ok r ->
          r = map (fun b => Box (c0 b) (c1 b)
                                (add (sub (c2 b) (c0 b)) (c0 b))
                                (add (sub (c3 b) (c1 b)) (c1 b))) m) /\
      ((exists r, roundtrip_TLBR bboxes_in debug = Ok r /\ matrix_numeq r m)
       <-> (debug = true -> bboxcheck_TLWH (map TLBR2TLWH_row m) = true) /\
           forallb roundtrip_exact_row m = true)) /\
  (forall (bboxes_in : bbox_input Z) (m : list (box Z)) (debug : bool),
      safe_bbox bboxes_in debug = Ok m ->
      bboxcheck_TLBR m = true ->
      Forall int64_box m ->
      bbox_TLBR2TLWH bboxes_in debug
        = Ok (map (fun b => Box (c0 b) (c1 b) (c2 b - c0 b)%Z (c3 b - c1 b)%Z) m)
      /\ roundtrip_TLBR bboxes_in debug = Ok m) /\
  (forall (x2 y2 : float) (debug : bool),
      PrimFloat.leb PrimFloat.zero x2 = true ->
      PrimFloat.leb PrimFloat.zero y2 = true ->
      exists r,
        roundtrip_TLBR (Flat [PrimFloat.zero; PrimFloat.zero; x2; y2]) debug
          = Ok [r] /\
        box_numeq r (Box PrimFloat.zero PrimFloat.zero x2 y2) = true) /\
  roundtrip_TLBR (Flat [5%float; 5%float; 10%float; 10%float]) true
    = Ok [Box 5%float 5%float 10%float 10%float].
Proof.
  split; [| split; [| split]].
  - intros T D O b m debug Hs Hc.
    pose proof (roundtrip_TLBR_rows b debug Hs Hc) as Rt.
    split; [| split].
    + unfold bbox_TLBR2TLWH. rewrite Hs. cbn [bind].
      rewrite Hc, py_assert_true. reflexivity.
    + intros r E. rewrite Rt in E.
      destruct (py_assert debug _ _); cbn [bind] in E; [| discriminate].
      inversion E. reflexivity.
    + rewrite Rt. split.
      * intros (r & E & N). split.
        -- intros ->. cbn [py_assert] in E.
           destruct (bboxcheck_TLWH (map TLBR2TLWH_row m)); [reflexivity |].
           discriminate.
        -- destruct (py_assert debug _ _); cbn [bind] in E; [| discriminate].
           inversion E; subst r. apply (roundtrip_rows_numeq m Hc). exact N.
      * intros [Hw He].
        exists (map (fun r => TLWH2TLBR_row (TLBR2TLWH_row r)) m). split.
        -- destruct debug; [| reflexivity].
           rewrite (Hw eq_refl). reflexivity.
        -- apply (roundtrip_rows_numeq m Hc). exact He.
  - intros b m debug Hs Hc Hm.
    destruct (int64_roundtrip_rows Hm Hc) as (E1 & E2 & E3).
    unfold roundtrip_TLBR, bbox_TLBR2TLWH. rewrite Hs. cbn [bind].
    rewrite Hc, py_assert_true. cbn [bind].
    split; [rewrite E1; reflexivity |].
    unfold bbox_TLWH2TLBR. rewrite safe_bbox_ndarray. cbn [bind].
    rewrite E2, py_assert_true. cbn [bind]. rewrite E3. reflexivity.
  - intros x2 y2 debug Lx Ly.
    destruct (@origin_box_exact x2 y2 Lx Ly) as (V & W0 & W1 & X).
    set (b := Box PrimFloat.zero PrimFloat.zero x2 y2) in *.
    assert (Hc : bboxcheck_TLBR [b] = true).
    { cbn [bboxcheck_TLBR forallb]. fold (valid_row b). rewrite V. reflexivity. }
    exists (TLWH2TLBR_row (TLBR2TLWH_row b)). split.
    + rewrite (roundtrip_TLBR_rows (Flat [PrimFloat.zero; PrimFloat.zero; x2; y2])
                 (m := [b]) debug eq_refl Hc).
      cbn [map bboxcheck_TLWH forallb]. rewrite W0, W1. cbn [andb].
      rewrite py_assert_true. reflexivity.
    + unfold valid_row in V. apply andb_true_iff in V. destruct V as [Vx Vy].
      rewrite (@roundtrip_row_numeq float float64 float64_order b Vx Vy).
      exact X.
  - vm_compute. reflexivity.
Qed.

Lemma TLBR_TLWH_roundtrip_exact_witness :
  (bbox_TLBR2TLWH (Flat [0.5%float; 1%float; 2.75%float; 10%float]) true
     = Ok [Box 0.5%float 1%float 2.25%float 9%float] /\
   ((exists r,
       roundtrip_TLBR (Flat [0.5%float; 1%float; 2.75%float; 10%float]) true
         = Ok r /\
       matrix_numeq r [Box 0.5%float 1%float 2.75%float 10%float])
    <-> (true = true ->
         bboxcheck_TLWH
           (map TLBR2TLWH_row [Box 0.5%float 1%float 2.75%float 10%float])
         = true) /\
        forallb roundtrip_exact_row
                [Box 0.5%float 1%float 2.75%float 10%float] = true)) /\
  (bbox_TLBR2TLWH (Flat [5%Z; 5%Z; 10%Z; 10%Z]) true
     = Ok [Box 5%Z 5%Z 5%Z 5%Z] /\
   roundtrip_TLBR (Flat [5%Z; 5%Z; 10%Z; 10%Z]) true
     = Ok [Box 5%Z 5%Z 10%Z 10%Z]) /\
  (exists r,
     roundtrip_TLBR
       (Flat [PrimFloat.zero; PrimFloat.zero; 0.7%float; 1e300%float]) true
       = Ok [r] /\
     box_numeq r (Box PrimFloat.zero PrimFloat.zero 0.7%float 1e300%float)
       = true).
Proof.
  pose proof TLBR_TLWH_roundtrip_exact as (G & I & F & _).
  split; [| split].
  - destruct (G float float64 float64_order
                (Flat [0.5%float; 1%float; 2.75%float; 10%float])
                [Box 0.5%float 1%float 2.75%float 10%float] true
                eq_refl eq_refl) as (G1 & _ & G3).
    split; [exact G1 | exact G3].
  - apply (I (Flat [5%Z; 5%Z; 10%Z; 10%Z]) [Box 5%Z 5%Z 10%Z 10%Z] true).
    + reflexivity.
    + reflexivity.
    + constructor; [| constructor].
      unfold int64_box, in_int64, int64_min, int64_max; simpl; lia.
  - apply (F 0.7%float 1e300%float true); reflexivity.
Defined.

(** C3 (as stated) fails on float64 boxes: [0.2, 0.3, 0.9, 0.9] is a valid
    TLBR box, both conversions accept it, and it comes back with
    x2 = 0.8999999999999999. *)
Lemma TLBR_TLWH_roundtrip_float64_inexact :
  let b := Box 0.2%float 0.3%float 0.9%float 0.9%float in
  bboxcheck_TLBR [b] = true /\
  exists r,
    roundtrip_TLBR (Flat [0.2%float; 0.3%float; 0.9%float; 0.9%float]) true
      = Ok [r] /\
    c2 r = 0.8999999999999999%float /\
    box_numeq r b = false.
Proof.
  split; [vm_compute; reflexivity |].
  eexists. split; [vm_compute; reflexivity |].
  split; vm_compute; reflexivity.
Qed.

(** ** Clipping *)

Lemma safe_bbox_error {T : Type} (b : bbox_input T) (debug : bool) (e : exn) :
  safe_bbox b debug = Raise e ->
  e = AssertionError "the input bounding box is not correct".
Proof.
  unfold safe_bbox. destruct b as [l|ll].
  - destruct (row_of_list l); intros E; inversion E; reflexivity.
  - destruct (rows_of_lists ll); intros E; inversion E; reflexivity.
Qed.

Section ClipFacts.

Context {T : Type} {D : Dtype T} {O : DtypeOrder T}.

Variable isinteger : T -> bool.

Lemma bboxcheck_TLBR_Forall (m : list (box T)) :
  bboxcheck_TLBR m = true <-> Forall (fun b => valid_row b = true) m.
Proof.
  unfold bboxcheck_TLBR. rewrite forallb_forall, Forall_forall. reflexivity.
Qed.

Lemma clip_row_in_image (W Ht : T) (b : box T) :
  le zero W = true -> le zero Ht = true -> valid_row b = true ->
  in_image W Ht (clip_row W Ht b) = true.
Proof.
  intros HW HH Hb. apply andb_true_iff in Hb. destruct Hb as [Lx Ly].
  destruct (le_isnan _ _ Lx) as [N0 N2], (le_isnan _ _ Ly) as [N1 N3].
  unfold in_image, within, clip_row. cbn [c0 c1 c2 c3].
  destruct (clamp_range W (c0 b) HW N0) as [-> ->].
  destruct (clamp_range Ht (c1 b) HH N1) as [-> ->].
  destruct (clamp_range W (c2 b) HW N2) as [-> ->].
  destruct (clamp_range Ht (c3 b) HH N3) as [-> ->].
  reflexivity.
Qed.

Lemma clip_row_valid (W Ht : T) (b : box T) :
  le zero W = true -> le zero Ht = true -> valid_row b = true ->
  valid_row (clip_row W Ht b) = true.
Proof.
  intros HW HH Hb. apply andb_true_iff in Hb. destruct Hb as [Lx Ly].
  unfold valid_row, clip_row. cbn [c0 c1 c2 c3].
  rewrite (clamp_mono W _ _ HW Lx), (clamp_mono Ht _ _ HH Ly). reflexivity.
Qed.

Lemma clip_row_collapses (W Ht : T) (b : box T) :
  le zero W = true -> le zero Ht = true -> valid_row b = true ->
  collapses W Ht b (clip_row W Ht b).
Proof.
  intros HW HH Hb. apply andb_true_iff in Hb. destruct Hb as [Lx Ly].
  unfold collapses, clip_row. cbn [c0 c1 c2 c3].
  split; [| split; [| split]]; intros L; split.
  - apply clamp_low; [exact HW | exact (le_trans _ _ _ Lx L)].
  - apply clamp_low; assumption.
  - apply clamp_high; assumption.
  - apply clamp_high; [exact HW | exact (le_trans _ _ _ L Lx)].
  - apply clamp_low; [exact HH | exact (le_trans _ _ _ Ly L)].
  - apply clamp_low; assumption.
  - apply clamp_high; assumption.
  - apply clamp_high; [exact HH | exact (le_trans _ _ _ L Ly)].
Qed.

(** On a valid input with an accepted image size the function returns the
    rows clipped one by one. *)
Lemma clip_bboxes_TLBR_ok (b : bbox_input T) (m : list (box T)) (W Ht : T)
    (debug : bool) :
  safe_bbox b debug = Ok m -> bboxcheck_TLBR m = true ->
  isinteger W = true -> isinteger Ht = true ->
  clip_bboxes_TLBR isinteger b W Ht debug = Ok (map (clip_row W Ht) m).
Proof.
  intros Hs Hc HW HH. unfold clip_bboxes_TLBR.
  rewrite Hs. cbn [bind]. rewrite HW, HH, Hc. cbn [andb].
  rewrite !py_assert_true. reflexivity.
Qed.

Lemma clipped_rows (W Ht : T) (m : list (box T)) :
  le zero W = true -> le zero Ht = true -> bboxcheck_TLBR m = true ->
  forallb (in_image W Ht) (map (clip_row W Ht) m) = true /\
  Forall2 (collapses W Ht) m (map (clip_row W Ht) m) /\
  bboxcheck_TLBR (map (clip_row W Ht) m) = true.
Proof.
  intros HW HH Hc. apply bboxcheck_TLBR_Forall in Hc.
  induction Hc as [|b m Hb Hm IH].
  - repeat split. constructor.
  - destruct IH as (I1 & I2 & I3). cbn [map forallb bboxcheck_TLBR].
    split; [| split].
    + rewrite (clip_row_in_image W Ht b HW HH Hb). exact I1.
    + constructor; [apply clip_row_collapses; assumption | exact I2].
    + fold (valid_row (clip_row W Ht b)).
      rewrite (clip_row_valid W Ht b HW HH Hb). exact I3.
Qed.

End ClipFacts.

Lemma int64_clamp (w x : Z) : clamp w x = Z.max (Z.min x w) 0.
Proof.
  unfold clamp, np_maximum, np_minimum. simpl. rewrite !orb_false_r.
  destruct (Z.leb_spec x w); destruct (Z.leb_spec 0 (Z.min x w));
    destruct (Z.leb_spec 0 x); destruct (Z.leb_spec 0 w); lia.
Qed.

(** C5: for every valid box matrix and every image size W, Ht >= 0 (that
    passes the integer check), [clip_bboxes_TLBR] returns without error a
    matrix whose x-coordinates lie in [0, W] and whose y-coordinates lie in
    [0, Ht]; a box entirely outside the image comes back collapsed onto the
    nearest boundary (zero area), not as an error; and
    clip_bboxes_TLBR([-3,-2,50,60], 40, 40) == [0,0,40,40]. *)
Theorem clip_bboxes_TLBR_within_image :
  (forall (T : Type) (D : Dtype T) (O : DtypeOrder T) (isinteger : T -> bool)
          (bboxes_in : bbox_input T) (m : list (box T)) (W Ht : T)
          (debug : bool),
      le zero W = true -> le zero Ht = true ->
      isinteger W = true -> isinteger Ht = true ->
      safe_bbox bboxes_in debug = Ok m -> bboxcheck_TLBR m = true ->
      exists r,
        clip_bboxes_TLBR isinteger bboxes_in W Ht debug = Ok r /\
        forallb (in_image W Ht) r = true /\
        Forall2 (collapses W Ht) m r) /\
  (forall isinteger : Z -> bool,
      isinteger 40%Z = true ->
      clip_bboxes_TLBR isinteger (Flat [(-3)%Z; (-2)%Z; 50%Z; 60%Z])
                       40%Z 40%Z true
        = Ok [Box 0%Z 0%Z 40%Z 40%Z]).
Proof.
  split.
  - intros T D O isinteger b m W Ht debug HW HH IW IH Hs Hc.
    exists (map (clip_row W Ht) m).
    destruct (clipped_rows W Ht m HW HH Hc) as (R1 & R2 & _).
    split; [apply clip_bboxes_TLBR_ok; assumption |].
    split; assumption.
  - intros isinteger H40. unfold clip_bboxes_TLBR. cbn [safe_bbox row_of_list bind].
    rewrite H40. reflexivity.
Qed.

Lemma clip_bboxes_TLBR_within_image_witness :
  (exists r,
     clip_bboxes_TLBR isinteger_int64 (Flat [50%Z; 50%Z; 60%Z; 70%Z])
                      40%Z 40%Z true = Ok r /\
     forallb (in_image 40%Z 40%Z) r = true /\
     Forall2 (collapses 40%Z 40%Z) [Box 50%Z 50%Z 60%Z 70%Z] r) /\
  (exists r,
     clip_bboxes_TLBR isinteger_float64
       (Flat [(-3.5)%float; 2.25%float; 50.5%float; 60%float])
       40%float 40%float true = Ok r /\
     forallb (in_image 40%float 40%float) r = true /\
     Forall2 (collapses 40%float 40%float)
             [Box (-3.5)%float 2.25%float 50.5%float 60%float] r).
Proof.
  split.
  - apply (proj1 clip_bboxes_TLBR_within_image Z int64 int64_order
             isinteger_int64 (Flat [50%Z; 50%Z; 60%Z; 70%Z])
             [Box 50%Z 50%Z 60%Z 70%Z] 40%Z 40%Z true); reflexivity.
  - apply (proj1 clip_bboxes_TLBR_within_image float float64 float64_order
             isinteger_float64
             (Flat [(-3.5)%float; 2.25%float; 50.5%float; 60%float])
             [Box (-3.5)%float 2.25%float 50.5%float 60%float]
             40%float 40%float true); reflexivity.
Defined.

(** C10: clipping preserves the TLBR ordering.  For every valid box matrix
    (x1 <= x2, y1 <= y2) and every image size W, Ht >= 0 the output of
    [clip_bboxes_TLBR] again has x1 <= x2 and y1 <= y2, each coordinate
    having gone through the same monotone clamp; the output is accepted as
    TLBR by the conversion to TLWH, and for int64 boxes its width and
    height are non-negative. *)
Theorem clip_bboxes_TLBR_keeps_order :
  (forall (T : Type) (D : Dtype T) (O : DtypeOrder T) (isinteger : T -> bool)
          (bboxes_in : bbox_input T) (m : list (box T)) (W Ht : T)
          (debug : bool),
      le zero W = true -> le zero Ht = true ->
      isinteger W = true -> isinteger Ht = true ->
      safe_bbox bboxes_in debug = Ok m -> bboxcheck_TLBR m = true ->
      exists r,
        clip_bboxes_TLBR isinteger bboxes_in W Ht debug = Ok r /\
        r = map (fun b => Box (clamp W (c0 b)) (clamp Ht (c1 b))
                              (clamp W (c2 b)) (clamp Ht (c3 b))) m /\
        bboxcheck_TLBR r = true /\
        bbox_TLBR2TLWH (ndarray r) debug = Ok (map TLBR2TLWH_row r)) /\
  (forall (m : list (box Z)) (W Ht : Z),
      (0 <= W)%Z -> (0 <= Ht)%Z -> in_int64 W -> in_int64 Ht ->
      bboxcheck_TLBR m = true ->
      bboxcheck_TLWH (map TLBR2TLWH_row (map (clip_row W Ht) m)) = true).
Proof.
  split.
  - intros T D O isinteger b m W Ht debug HW HH IW IH Hs Hc.
    exists (map (clip_row W Ht) m).
    destruct (clipped_rows W Ht m HW HH Hc) as (_ & _ & R3).
    split; [apply clip_bboxes_TLBR_ok; assumption |].
    split; [reflexivity |].
    split; [exact R3 |].
    unfold bbox_TLBR2TLWH. rewrite safe_bbox_ndarray. cbn [bind].
    rewrite R3, py_assert_true. reflexivity.
  - intros m W Ht HW HH IW IH Hc.
    apply bboxcheck_TLBR_Forall in Hc.
    unfold bboxcheck_TLWH. rewrite forallb_forall. intros c Hin.
    apply in_map_iff in Hin. destruct Hin as (c' & <- & Hin).
    apply in_map_iff in Hin. destruct Hin as (b & <- & Hin).
    rewrite Forall_forall in Hc. specialize (Hc b Hin).
    apply andb_true_iff in Hc. destruct Hc as [Lx Ly].
    simpl in Lx, Ly. apply Z.leb_le in Lx, Ly.
    unfold TLBR2TLWH_row, clip_row. cbn [c0 c1 c2 c3].
    rewrite !int64_clamp. simpl.
    unfold in_int64, int64_min, int64_max in IW, IH.
    rewrite !wrap64_id by (unfold in_int64, int64_min, int64_max; lia).
    apply andb_true_iff. split; apply Z.leb_le; lia.
Qed.

Lemma clip_bboxes_TLBR_keeps_order_witness :
  exists r,
    clip_bboxes_TLBR isinteger_int64 (Flat [(-3)%Z; 10%Z; 50%Z; 60%Z])
                     40%Z 40%Z true = Ok r /\
    r = [Box 0%Z 10%Z 40%Z 40%Z] /\
    bboxcheck_TLBR r = true /\
    bbox_TLBR2TLWH (ndarray r) true = Ok (map TLBR2TLWH_row r).
Proof.
  apply (proj1 clip_bboxes_TLBR_keeps_order Z int64 int64_order
           isinteger_int64 (Flat [(-3)%Z; 10%Z; 50%Z; 60%Z])
           [Box (-3)%Z 10%Z 50%Z 60%Z] 40%Z 40%Z true); reflexivity.
Defined.

(** ** The image-size check, and clipping in the two formats *)

Section SizeCheck.

Context {T : Type} {D : Dtype T}.

Variable isinteger : T -> bool.

Lemma clip_bboxes_TLBR_size_error (b : bbox_input T) (W Ht : T) (debug : bool) :
  size_error (clip_bboxes_TLBR isinteger b W Ht debug) <->
  debug = true /\ is_ok (safe_bbox b debug) = true /\
  isinteger W && isinteger Ht = false.
Proof.
  unfold size_error, clip_bboxes_TLBR.
  destruct (safe_bbox b debug) as [m|e] eqn:Hs; cbn [bind is_ok].
  - destruct debug, (isinteger W && isinteger Ht), (bboxcheck_TLBR m);
      cbn; split; intros E; try discriminate; try (destruct E as (? & ? & ?));
      try discriminate; auto.
  - apply safe_bbox_error in Hs. subst e.
    split; [discriminate | intros (_ & E & _); discriminate].
Qed.

Lemma clip_bboxes_TLWH_size_error (b : bbox_input T) (W Ht : T) (debug : bool) :
  size_error (clip_bboxes_TLWH isinteger b W Ht debug) <->
  debug = true /\ is_ok (safe_bbox b debug) = true /\
  isinteger W && isinteger Ht = false.
Proof.
  unfold size_error, clip_bboxes_TLWH.
  destruct (safe_bbox b debug) as [m|e] eqn:Hs; cbn [bind is_ok].
  - destruct debug, (isinteger W && isinteger Ht) eqn:HI; cbn.
    + destruct (bboxcheck_TLWH m) eqn:Hc; cbn.
      * unfold bbox_TLWH2TLBR. rewrite safe_bbox_ndarray. cbn [bind].
        rewrite Hc. cbn.
        unfold clip_bboxes_TLBR. rewrite safe_bbox_ndarray. cbn [bind].
        rewrite HI. cbn.
        destruct (bboxcheck_TLBR (map TLWH2TLBR_row m)) eqn:Hc'; cbn.
        -- unfold bbox_TLBR2TLWH. rewrite safe_bbox_ndarray. cbn [bind].
           destruct (bboxcheck_TLBR (map (clip_row W Ht) (map TLWH2TLBR_row m)));
             cbn;
             (split; [discriminate | intros (_ & _ & E); discriminate]).
        -- split; [discriminate | intros (_ & _ & E); discriminate].
      * split; [discriminate | intros (_ & _ & E); discriminate].
    + split; [intros _; auto | reflexivity].
    + unfold bbox_TLWH2TLBR. rewrite safe_bbox_ndarray. cbn.
      unfold clip_bboxes_TLBR. rewrite safe_bbox_ndarray. cbn.
      unfold bbox_TLBR2TLWH. rewrite safe_bbox_ndarray. cbn.
      split; [discriminate | intros (E & _); discriminate].
    + unfold bbox_TLWH2TLBR. rewrite safe_bbox_ndarray. cbn.
      unfold clip_bboxes_TLBR. rewrite safe_bbox_ndarray. cbn.
      unfold bbox_TLBR2TLWH. rewrite safe_bbox_ndarray. cbn.
      split; [discriminate | intros (E & _); discriminate].
  - apply safe_bbox_error in Hs. subst e.
    split; [discriminate | intros (_ & E & _); discriminate].
Qed.

End SizeCheck.

(** C6 (as amended): with debug on (the default), [clip_bboxes_TLBR] and
    [clip_bboxes_TLWH] raise the assertion 'the image width and height are
    not correct' exactly when the input coerces to an N x 4 matrix and
    [isinteger] rejects im_width or im_height; the check comes before the
    box-format check and before any clipping, so it does not depend on the
    boxes.  With debug off the size is not checked at all. *)
Theorem clip_size_check :
  forall (T : Type) (D : Dtype T) (isinteger : T -> bool)
         (bboxes_in : bbox_input T) (W Ht : T) (debug : bool),
    (size_error (clip_bboxes_TLBR isinteger bboxes_in W Ht debug) <->
       debug = true /\ is_ok (safe_bbox bboxes_in debug) = true /\
       isinteger W && isinteger Ht = false) /\
    (size_error (clip_bboxes_TLWH isinteger bboxes_in W Ht debug) <->
       debug = true /\ is_ok (safe_bbox bboxes_in debug) = true /\
       isinteger W && isinteger Ht = false).
Proof.
  intros. split.
  - apply clip_bboxes_TLBR_size_error.
  - apply clip_bboxes_TLWH_size_error.
Qed.

(** C6 (as stated) fails: 2.5 is not a non-negative integer, and with
    debug off both functions clip to it without any error. *)
Lemma clip_size_unchecked_without_debug :
  isinteger_float64 2.5%float = false /\
  clip_bboxes_TLBR isinteger_float64
    (Flat [0%float; 0%float; 4%float; 1%float]) 2.5%float 2.5%float false
    = Ok [Box 0%float 0%float 2.5%float 1%float] /\
  clip_bboxes_TLWH isinteger_float64
    (Flat [0%float; 0%float; 4%float; 1%float]) 2.5%float 2.5%float false
    = Ok [Box 0%float 0%float 2.5%float 1%float].
Proof. repeat split; vm_compute; reflexivity. Qed.

(** C7: for every valid TLWH box matrix and every image size,
    [clip_bboxes_TLWH] is the composition: to TLBR, clip, back to TLWH
    (result or exception alike). *)
Theorem clip_bboxes_TLWH_is_composition :
  forall (T : Type) (D : Dtype T) (isinteger : T -> bool)
         (bboxes_in : bbox_input T) (m : list (box T)) (W Ht : T)
         (debug : bool),
    safe_bbox bboxes_in debug = Ok m ->
    bboxcheck_TLWH m = true ->
    clip_bboxes_TLWH isinteger bboxes_in W Ht debug
      = (bboxes_TLBR <- bbox_TLWH2TLBR bboxes_in debug ;;
         clipped <- clip_bboxes_TLBR isinteger (ndarray bboxes_TLBR) W Ht debug ;;
         bbox_TLBR2TLWH (ndarray clipped) debug).
Proof.
  intros T D isinteger b m W Ht debug Hs Hc.
  unfold clip_bboxes_TLWH, bbox_TLWH2TLBR at 2.
  rewrite Hs. cbn [bind]. rewrite Hc, py_assert_true. cbn [bind].
  unfold bbox_TLWH2TLBR. rewrite safe_bbox_ndarray. cbn [bind].
  rewrite Hc, py_assert_true. cbn [bind].
  unfold clip_bboxes_TLBR. rewrite safe_bbox_ndarray. cbn [bind].
  destruct (py_assert debug (isinteger W && isinteger Ht) _); reflexivity.
Qed.

Lemma clip_bboxes_TLWH_is_composition_witness :
  clip_bboxes_TLWH isinteger_int64 (Flat [(-3)%Z; 10%Z; 53%Z; 20%Z])
                   40%Z 40%Z true
    = Ok [Box 0%Z 10%Z 40%Z 20%Z].
Proof.
  rewrite (clip_bboxes_TLWH_is_composition int64 isinteger_int64
             (Flat [(-3)%Z; 10%Z; 53%Z; 20%Z])
             (m := [Box (-3)%Z 10%Z 53%Z 20%Z]) 40%Z 40%Z true);
    reflexivity.
Defined.

(** ** Center crop *)

(** With integer image sizes the center is the floor of the half: the
    ceiling is taken of a number that is already whole. *)
Lemma center_of_int_size (W : Z) :
  py_ceil (py_div2 (PyInt W)) = float_of_Z (W / 2).
Proof. reflexivity. Qed.

(** With a float image size the center is the ceiling of the half. *)
Lemma center_of_float_size (W : float) :
  py_ceil (py_div2 (PyFloat W)) = float_ceil (PrimFloat.div W 2).
Proof. reflexivity. Qed.

(** C4: the two-element case on the 5 x 5 image with the crop (4, 4).  The
    specification gives center (3, 3) and top-left (1, 1); the function
    returns top-left (0, 0), its center being (2, 2).  With the sizes given
    as floats it returns what the specification says. *)
Theorem get_center_crop_bbox_odd_image :
  get_center_crop_bbox (Flat [4%Z; 4%Z]) (Some (PyInt 5)) (Some (PyInt 5)) true
    = Ok [Box 0%Z 0%Z 4%Z 4%Z] /\
  center_crop_spec 4 4 5 5 = Box 1%Z 1%Z 4%Z 4%Z /\
  get_center_crop_bbox (Flat [4%float; 4%float])
                       (Some (PyFloat 5)) (Some (PyFloat 5)) true
    = Ok [Box 1%Z 1%Z 4%Z 4%Z].
Proof. repeat split; vm_compute; reflexivity. Qed.

(** ** Enlargement *)

Lemma py_max_two_rows (x y : float) (a : list float) (x' y' : float)
    (b : list float) :
  py_max (x :: y :: a) (x' :: y' :: b)
    = Raise (ValueError
        "The truth value of an array with more than one element is ambiguous. Use a.any() or a.all()").
Proof. reflexivity. Qed.

(** Any array of two or more boxes stops at the first [max]. *)
Lemma bbox_enlarge_two_or_more (b1 b2 : box float) (bbox : list (box float))
    (ratio : float) (width_ratio height_ratio : option float)
    (min_length : float) (min_width min_height : option float) :
  bbox_enlarge (b1 :: b2 :: bbox) ratio width_ratio height_ratio min_length
               min_width min_height false
    = Raise (ValueError
        "The truth value of an array with more than one element is ambiguous. Use a.any() or a.all()").
Proof.
  unfold bbox_enlarge. cbn [py_assert bind map].
  destruct width_ratio, height_ratio, min_height, min_width; reflexivity.
Qed.

(** C9: the example of the specification holds, [[0,0,10,10]] with
    ratio 0.2 and min_length 0 becomes [[-1,-1,11,11]]; an array of two
    boxes is not enlarged: the call raises ValueError. *)
Theorem bbox_enlarge_one_and_two_rows :
  bbox_enlarge [Box 0%float 0%float 10%float 10%float]
               0.2%float None None 0%float None None true
    = Ok [Box (-1)%float (-1)%float 11%float 11%float] /\
  bbox_enlarge [Box 0%float 0%float 10%float 10%float;
                Box 0%float 0%float 20%float 20%float]
               0.2%float None None 0%float None None true
    = Raise (ValueError
        "The truth value of an array with more than one element is ambiguous. Use a.any() or a.all()").
Proof. split; vm_compute; reflexivity. Qed.

(** ** The store: which arrays a call writes *)

Section StoreFacts.

Context {T : Type} {D : Dtype T}.

Lemma read_Ok (s : store T) (l : loc) (a : list (box T)) :
  read s l = Ok a <-> nth_error s l = Some a.
Proof.
  unfold read. destruct (nth_error s l); split; intros E;
    inversion E; reflexivity.
Qed.



Lemma read_alloc_new (s : store T) (z : list (box T)) :
  read (s ++ [z]) (List.length s) = Ok z.
Proof.
  apply read_Ok. rewrite nth_error_app2, Nat.sub_diag; [reflexivity | lia].
Qed.

Lemma update_alloc_new (s : store T) (z z' : list (box T)) :
  update (s ++ [z]) (List.length s) z' = s ++ [z'].
Proof. induction s as [|x s IH]; simpl; [reflexivity | rewrite IH; reflexivity]. Qed.



Lemma nth_error_update_other (s : store T) (l k : loc) (a : list (box T)) :
  k <> l -> nth_error (update s l a) k = nth_error s k.
Proof.
  revert l k. induction s as [|x s IH]; intros [|l] [|k] Hkl; simpl;
    try reflexivity; try congruence.
  apply IH. congruence.
Qed.

Lemma length_update (s : store T) (l : loc) (a : list (box T)) :
  List.length (update s l a) = List.length s.
Proof.
  revert l. induction s as [|x s IH]; intros [|l]; simpl; try reflexivity.
  rewrite IH. reflexivity.
Qed.

Lemma length_setc_rows (j : col) (vs : list T) (a : list (box T)) :
  List.length (setc_rows j vs a) = List.length a.
Proof.
  revert a. induction vs as [|v vs IH]; intros [|b a]; simpl; try reflexivity.
  rewrite IH. reflexivity.
Qed.

Lemma length_zip_with {A B C : Type} (f : A -> B -> C) (x : list A) (y : list B) :
  List.length x = List.length y ->
  List.length (zip_with f x y) = List.length x.
Proof.
  revert y. induction x as [|u x IH]; intros [|v y] E; simpl in *;
    try reflexivity; try discriminate.
  rewrite IH; [reflexivity | congruence].
Qed.



Lemma assign_column_at (s : store T) (l : loc) (a : list (box T)) (j : col)
    (vs : list T) :
  read s l = Ok a -> List.length vs = List.length a ->
  assign_column s l j vs = Ok (update s l (setc_rows j vs a)).
Proof.
  intros E Hl. unfold assign_column. rewrite E. cbn [bind].
  rewrite Hl, Nat.eqb_refl. reflexivity.
Qed.

(** Filling a fresh array column by column gives the rows of the pure
    function. *)
Lemma fill_columns (f : box T -> box T) (a : list (box T)) :
  setc_rows Col3 (map (fun b => c3 (f b)) a)
    (setc_rows Col2 (map (fun b => c2 (f b)) a)
      (setc_rows Col1 (map (fun b => c1 (f b)) a)
        (setc_rows Col0 (map (fun b => c0 (f b)) a)
          (map (fun _ => Box zero zero zero zero) a))))
  = map f a.
Proof.
  induction a as [|b a IH]; simpl; [reflexivity |].
  rewrite IH. destruct (f b); reflexivity.
Qed.

(** A function that allocates its result, fills it from the columns of its
    argument and returns it: four assignments into the new location. *)
Lemma fill_new_array (s : store T) (l : loc) (a : list (box T))
    (f : box T -> box T) :
  read s l = Ok a ->
  let s0 := s ++ [map (fun _ => Box zero zero zero zero) a] in
  let out := List.length s in
  (s1 <- assign_column s0 out Col0 (map (fun b => c0 (f b)) a) ;;
   s2 <- assign_column s1 out Col1 (map (fun b => c1 (f b)) a) ;;
   s3 <- assign_column s2 out Col2 (map (fun b => c2 (f b)) a) ;;
   s4 <- assign_column s3 out Col3 (map (fun b => c3 (f b)) a) ;;
   Ok (out, s4))
  = Ok (List.length s, s ++ [map f a]).
Proof.
  intros E s0 out. subst s0 out.
  erewrite assign_column_at;
    [| apply read_alloc_new | rewrite !length_map; reflexivity].
  cbn [bind]. rewrite update_alloc_new.
  erewrite assign_column_at;
    [| apply read_alloc_new
     | rewrite length_setc_rows, !length_map; reflexivity].
  cbn [bind]. rewrite update_alloc_new.
  erewrite assign_column_at;
    [| apply read_alloc_new
     | rewrite !length_setc_rows, !length_map; reflexivity].
  cbn [bind]. rewrite update_alloc_new.
  erewrite assign_column_at;
    [| apply read_alloc_new
     | rewrite !length_setc_rows, !length_map; reflexivity].
  cbn [bind]. rewrite update_alloc_new, fill_columns. reflexivity.
Qed.

End StoreFacts.

Section AllocatingFunctions.

Context {T : Type} {D : Dtype T}.

Variable isinteger : T -> bool.





End AllocatingFunctions.

(** ** The functions that write into their argument *)


Lemma column_setc_rows_other {T : Type} (j j' : col) (vs : list T)
    (a : list (box T)) :
  j <> j' -> map (getc j) (setc_rows j' vs a) = map (getc j) a.
Proof.
  intros Hj. revert a. induction vs as [|v vs IH]; intros [|b a]; simpl;
    try reflexivity.
  rewrite IH. f_equal. destruct j, j'; try reflexivity; congruence.
Qed.




(** ** New arrays on a heap *)









(** ** The functions that call [get_line] *)












(** ** Regression targets *)

Module RegressionFacts.

Import Regression.

Local Open Scope R_scope.

Lemma zipM_ok {A B C : Type} (P : A -> Prop) (Q : B -> Prop)
    (f : A -> B -> result C) (g : A -> B -> C) (a : list A) (b : list B) :
  (forall x y, P x -> Q y -> f x y = Ok (g x y)) ->
  Forall P a -> Forall Q b ->
  zipM f a b = Ok (zip_with g a b).
Proof.
  intros Hf Ha. revert b. induction Ha as [|x a Hx Ha IH]; intros b Hb.
  - destruct b; reflexivity.
  - destruct Hb as [|y b Hy Hb]; [reflexivity |].
    simpl. rewrite (Hf x y Hx Hy). cbn [bind]. rewrite (IH b Hb). reflexivity.
Qed.

Lemma bcast2_same_length {A B C : Type} (f : A -> B -> result C)
    (a : list A) (b : list B) :
  List.length a = List.length b -> bcast2 f a b = zipM f a b.
Proof. intros E. unfold bcast2. rewrite E, Nat.eqb_refl. reflexivity. Qed.

Lemma vstack4_zip {A B : Type} (f1 f2 f3 f4 : A -> B -> R)
    (a : list A) (b : list B) :
  vstack4_transpose (zip_with f1 a b) (zip_with f2 a b)
                    (zip_with f3 a b) (zip_with f4 a b)
  = zip_with (fun x y => [f1 x y; f2 x y; f3 x y; f4 x y]) a b.
Proof.
  revert b. induction a as [|x a IH]; intros [|y b]; simpl; try reflexivity.
  rewrite IH. reflexivity.
Qed.

Lemma pos_geo_rows (rows : list (list R)) :
  Forall positive_size rows -> Forall pos_geo (map geometry_of rows).
Proof.
  induction 1; simpl; constructor; assumption.
Qed.

Lemma np_div_ok (x y : R) : 0 < y -> np_div x y = Ok (x / y).
Proof.
  intros Hy. unfold np_div. destruct (Req_dec_T y 0); [lra | reflexivity].
Qed.

Lemma np_log_ok (x : R) : 0 < x -> np_log x = Ok (ln x).
Proof.
  intros Hx. unfold np_log. destruct (Rlt_dec 0 x); [reflexivity | contradiction].
Qed.

Lemma np_log_div_ok (x y : R) :
  0 < x -> 0 < y -> (q <- np_div x y ;; np_log q) = Ok (ln (x / y)).
Proof.
  intros Hx Hy. rewrite np_div_ok by exact Hy. cbn [bind].
  apply np_log_ok. apply Rdiv_lt_0_compat; assumption.
Qed.

(** On rows of positive size the encoder returns the targets of
    [encode_row], row by row. *)
Lemma bbox_transform_ok (ex_rois gt_rois : matrix) :
  ncols ex_rois = 4%nat -> ncols gt_rois = 4%nat ->
  nrows ex_rois = nrows gt_rois ->
  Forall positive_size (mrows ex_rois) ->
  Forall positive_size (mrows gt_rois) ->
  bbox_transform ex_rois gt_rois
    = Ok (Matrix 4 (zip_with encode_row (map geometry_of (mrows gt_rois))
                                        (map geometry_of (mrows ex_rois)))).
Proof.
  intros Ce Cg Hn Pe Pg. unfold bbox_transform. rewrite Ce, Cg. cbn [Nat.ltb Nat.leb].
  apply pos_geo_rows in Pe, Pg.
  assert (Hl : List.length (map geometry_of (mrows gt_rois))
               = List.length (map geometry_of (mrows ex_rois))).
  { rewrite !length_map. symmetry. exact Hn. }
  rewrite !bcast2_same_length by exact Hl.
  rewrite zipM_ok with (P := pos_geo) (Q := pos_geo)
      (g := fun g e => (g_ctr_x g - g_ctr_x e) / g_width e)
    by (try assumption; intros g e _ [He _]; apply np_div_ok; exact He).
  cbn [bind].
  rewrite zipM_ok with (P := pos_geo) (Q := pos_geo)
      (g := fun g e => (g_ctr_y g - g_ctr_y e) / g_height e)
    by (try assumption; intros g e _ [_ He]; apply np_div_ok; exact He).
  cbn [bind].
  rewrite zipM_ok with (P := pos_geo) (Q := pos_geo)
      (g := fun g e => ln (g_width g / g_width e))
    by (try assumption; intros g e [Hg _] [He _]; apply np_log_div_ok; assumption).
  cbn [bind].
  rewrite zipM_ok with (P := pos_geo) (Q := pos_geo)
      (g := fun g e => ln (g_height g / g_height e))
    by (try assumption; intros g e [_ Hg] [_ He]; apply np_log_div_ok; assumption).
  cbn [bind]. rewrite vstack4_zip. reflexivity.
Qed.

(** Decoding the targets of a row gives the target box with x2 and y2 one
    pixel further: the widths were taken as x2 - x1 + 1, and nothing takes
    the 1 off again. *)
Lemma decode_encode_row (t a : list R) :
  positive_size t -> positive_size a ->
  decode_row (geometry_of a) (encode_row (geometry_of t) (geometry_of a))
    = shifted t.
Proof.
  intros [Wt Ht] [Wa Ha]. unfold encode_row, decode_row, shifted.
  rewrite !exp_ln by (apply Rdiv_lt_0_compat; assumption).
  unfold geometry_of in *. cbn [g_width g_height g_ctr_x g_ctr_y] in *.
  unfold Q2R in *. cbn [QArith_base.Qnum QArith_base.Qden] in *.
  repeat (apply (f_equal2 (@cons R)); [field; lra |]). reflexivity.
Qed.

Lemma decode_encode_rows (gt ex : list (list R)) :
  List.length ex = List.length gt ->
  Forall positive_size ex -> Forall positive_size gt ->
  zip_with (fun d b => decode_row b d)
           (zip_with encode_row (map geometry_of gt) (map geometry_of ex))
           (map geometry_of ex)
  = map shifted gt.
Proof.
  intros Hl Pe. revert gt Hl. induction Pe as [|a ex Pa Pe IH];
    intros [|t gt] Hl Pg; simpl in *; try reflexivity; try discriminate.
  inversion Pg; subst.
  change (decode_row (geometry_of a)
            (encode_row (geometry_of t) (geometry_of a))
          :: zip_with (fun d b => decode_row b d)
               (zip_with encode_row (map geometry_of gt) (map geometry_of ex))
               (map geometry_of ex)
          = shifted t :: map shifted gt).
  rewrite decode_encode_row by assumption.
  rewrite IH by (try assumption; congruence). reflexivity.
Qed.

(** Decoding what the encoder returns, for any anchors and targets of
    positive size. *)
Lemma decode_encode (ex_rois gt_rois : matrix) (debug : bool) :
  ncols ex_rois = 4%nat -> ncols gt_rois = 4%nat ->
  nrows ex_rois = nrows gt_rois ->
  Forall positive_size (mrows ex_rois) ->
  Forall positive_size (mrows gt_rois) ->
  (targets <- bbox_transform ex_rois gt_rois ;;
   bbox_transform_inv ex_rois targets debug)
  = Ok (Matrix 4 (map shifted (mrows gt_rois))).
Proof.
  intros Ce Cg Hn Pe Pg.
  rewrite bbox_transform_ok by assumption. cbn [bind].
  unfold bbox_transform_inv, nrows in *. cbn [ncols mrows].
  destruct (mrows ex_rois) as [|a ex] eqn:Ee.
  - destruct (mrows gt_rois); [reflexivity | discriminate].
  - set (X := a :: ex) in *. set (G := mrows gt_rois) in *.
    assert (Hl : List.length (map geometry_of G)
                 = List.length (map geometry_of X))
      by (rewrite !length_map; symmetry; exact Hn).
    assert (Hz : List.length (zip_with encode_row (map geometry_of G)
                                       (map geometry_of X))
                 = List.length X)
      by (rewrite length_zip_with by exact Hl; rewrite length_map;
          symmetry; exact Hn).
    rewrite Hz, Ce. cbn [Nat.ltb Nat.leb]. unfold X at 1 2.
    cbn [List.length Nat.eqb]. rewrite andb_false_r.
    rewrite bcast2_same_length by (rewrite Hz, length_map; reflexivity).
    rewrite zipM_ok with (P := fun _ => True) (Q := fun _ => True)
      (g := fun d b => decode_row b d);
      [| reflexivity | apply Forall_forall; intros; exact I
       | apply Forall_forall; intros; exact I].
    cbn [bind].
    rewrite decode_encode_rows by assumption.
    cbn [Nat.modulo Nat.eqb negb].
    rewrite length_map, <- Hn. unfold X. cbn [List.length].
    cbn [Nat.eqb negb]. rewrite (Nat.eqb_refl (List.length ex)). reflexivity.
Qed.

(** C1: the anchor [0, 0, 9, 9] and the target [2, 3, 11, 14].  Decoding
    the encoding returns [2, 3, 12, 15]: x2 and y2 are off by one pixel,
    far outside the tolerance 1e-5. *)
Theorem decode_encode_off_by_one :
  (targets <- bbox_transform (Matrix 4 [[0; 0; 9; 9]])
                             (Matrix 4 [[2; 3; 11; 14]]) ;;
   bbox_transform_inv (Matrix 4 [[0; 0; 9; 9]]) targets false)
  = Ok (Matrix 4 [[2; 3; 12; 15]]) /\
  ~ close 12 11 /\ ~ close 15 14.
Proof.
  split.
  - rewrite decode_encode.
    + cbn [mrows map]. unfold shifted. cbn [nth].
      replace (11 + 1) with 12 by lra. replace (14 + 1) with 15 by lra.
      reflexivity.
    + reflexivity.
    + reflexivity.
    + reflexivity.
    + constructor; [| constructor].
      unfold positive_size, geometry_of; cbn [g_width g_height nth]; lra.
    + constructor; [| constructor].
      unfold positive_size, geometry_of; cbn [g_width g_height nth]; lra.
  - unfold close. split; intros H.
    + replace (12 - 11) with 1 in H by lra. rewrite Rabs_R1 in H. lra.
    + replace (15 - 14) with 1 in H by lra. rewrite Rabs_R1 in H. lra.
Qed.

(** C8: for every deltas matrix, when the anchor boxes have zero rows
    [bbox_transform_inv] returns, without raising, a matrix of zero rows
    with the column count of the deltas. *)
Theorem bbox_transform_inv_no_anchors :
  forall (boxes deltas : matrix) (debug : bool),
    nrows boxes = 0%nat ->
    exists r,
      bbox_transform_inv boxes deltas debug = Ok r /\
      nrows r = 0%nat /\ ncols r = ncols deltas.
Proof.
  intros boxes deltas debug H0.
  exists (Matrix (ncols deltas) []).
  unfold bbox_transform_inv. rewrite H0. repeat split.
Qed.

Lemma bbox_transform_inv_no_anchors_witness :
  exists r,
    bbox_transform_inv (Matrix 4 [])
                       (Matrix 8 [[0; 0; 0; 0; 1; 1; 1; 1]]) true = Ok r /\
    nrows r = 0%nat /\ ncols r = 8%nat.
Proof.
  apply (bbox_transform_inv_no_anchors (Matrix 4 [])
           (Matrix 8 [[0; 0; 0; 0; 1; 1; 1; 1]]) true).
  reflexivity.
Defined.

End RegressionFacts.

(** ** Clipping: fixed points *)

Section ClipFixed.

Context {T : Type} {D : Dtype T} {O : DtypeOrder T}.

Lemma clamp_within (w x : T) : within w x = true -> clamp w x = x.
Proof.
  unfold within, clamp, np_maximum, np_minimum. intros Hx.
  apply andb_true_iff in Hx. destruct Hx as [L0 Lw].
  rewrite Lw. cbn [orb]. rewrite L0. reflexivity.
Qed.

Lemma clamp_nan (w x : T) : isnan x = true -> clamp w x = x.
Proof.
  unfold clamp, np_maximum, np_minimum. intros Hx.
  rewrite Hx, orb_true_r, Hx, orb_true_r. reflexivity.
Qed.

Lemma clamp_clamp (w x : T) :
  le zero w = true -> clamp w (clamp w x) = clamp w x.
Proof.
  intros Hw. destruct (isnan x) eqn:Hx.
  - rewrite (clamp_nan w x Hx). apply clamp_nan. exact Hx.
  - apply clamp_within. unfold within.
    destruct (clamp_range w x Hw Hx) as [L0 L1]. rewrite L0, L1. reflexivity.
Qed.

Lemma clip_row_inside (W Ht : T) (b : box T) :
  in_image W Ht b = true -> clip_row W Ht b = b.
Proof.
  unfold in_image, clip_row. intros Hb.
  do 3 (apply andb_true_iff in Hb; destruct Hb as [Hb ?]).
  rewrite !clamp_within by assumption. destruct b; reflexivity.
Qed.

Lemma clip_row_clip_row (W Ht : T) (b : box T) :
  le zero W = true -> le zero Ht = true ->
  clip_row W Ht (clip_row W Ht b) = clip_row W Ht b.
Proof.
  intros HW HH. unfold clip_row. cbn [c0 c1 c2 c3].
  rewrite !clamp_clamp by assumption. reflexivity.
Qed.

End ClipFixed.

(** X1: a box matrix that already lies in the image comes back from
    [clip_bboxes_TLBR] as it is, field by field. *)
Theorem clip_bboxes_TLBR_inside_unchanged :
  forall (T : Type) (D : Dtype T) (isinteger : T -> bool)
         (bboxes_in : bbox_input T) (m : list (box T)) (W Ht : T)
         (debug : bool),
    isinteger W = true -> isinteger Ht = true ->
    safe_bbox bboxes_in debug = Ok m -> bboxcheck_TLBR m = true ->
    forallb (in_image W Ht) m = true ->
    clip_bboxes_TLBR isinteger bboxes_in W Ht debug = Ok m.
Proof.
  intros T D isinteger b m W Ht debug IW IH Hs Hc Hin.
  unfold clip_bboxes_TLBR. rewrite Hs. cbn [bind].
  rewrite IW, IH, Hc. cbn [andb]. rewrite !py_assert_true. cbn [bind].
  f_equal. clear Hs Hc. induction m as [|r m IHm]; [reflexivity |].
  cbn [forallb] in Hin. apply andb_true_iff in Hin. destruct Hin as [Hr Hm].
  cbn [map]. rewrite IHm by exact Hm. rewrite clip_row_inside by exact Hr.
  reflexivity.
Qed.

Lemma clip_bboxes_TLBR_inside_unchanged_witness :
  clip_bboxes_TLBR isinteger_float64
    (Rows [[1.5%float; 0%float; 40%float; 12.25%float];
           [0%float; 3%float; 7%float; 30%float]])
    40%float 30%float true
  = Ok [Box 1.5%float 0%float 40%float 12.25%float;
        Box 0%float 3%float 7%float 30%float].
Proof.
  apply (@clip_bboxes_TLBR_inside_unchanged float float64 isinteger_float64);
    reflexivity.
Defined.

(** X2: clipping is idempotent.  For an image size W, Ht >= 0, whatever
    [clip_bboxes_TLBR] returns (with or without the debug checks, NaN
    coordinates included) is returned unchanged when it is clipped again. *)
Theorem clip_bboxes_TLBR_idempotent :
  forall (T : Type) (D : Dtype T) (O : DtypeOrder T) (isinteger : T -> bool)
         (bboxes_in : bbox_input T) (r : list (box T)) (W Ht : T)
         (debug : bool),
    le zero W = true -> le zero Ht = true ->
    clip_bboxes_TLBR isinteger bboxes_in W Ht debug = Ok r ->
    clip_bboxes_TLBR isinteger (ndarray r) W Ht debug = Ok r.
Proof.
  intros T D O isinteger b r W Ht debug HW HH E.
  unfold clip_bboxes_TLBR in *. rewrite safe_bbox_ndarray. cbn [bind].
  destruct (safe_bbox b debug) as [m|e]; [| discriminate]. cbn [bind] in E.
  destruct (py_assert debug (isinteger W && isinteger Ht) _) as [[]|e];
    [| discriminate].
  cbn [bind] in *.
  destruct debug.
  - unfold py_assert in *.
    destruct (bboxcheck_TLBR m) eqn:Hc; [| discriminate].
    cbn [bind] in E. inversion E; subst r; clear E.
    destruct (clipped_rows W Ht m HW HH Hc) as (_ & _ & V). rewrite V.
    cbn [bind]. f_equal. rewrite map_map. apply map_ext. intros a.
    apply clip_row_clip_row; assumption.
  - cbn [py_assert bind] in *. inversion E; subst r; clear E.
    f_equal. rewrite map_map. apply map_ext. intros a.
    apply clip_row_clip_row; assumption.
Qed.

Lemma clip_bboxes_TLBR_idempotent_witness :
  clip_bboxes_TLBR isinteger_int64
    (ndarray [Box 0%Z 0%Z 40%Z 40%Z]) 40%Z 40%Z true
  = Ok [Box 0%Z 0%Z 40%Z 40%Z].
Proof.
  apply (@clip_bboxes_TLBR_idempotent Z int64 int64_order isinteger_int64
           (Flat [(-3)%Z; (-2)%Z; 50%Z; 60%Z]));
    reflexivity.
Defined.

(** ** TLWH boxes of integers *)

Lemma int64_TLWH_row (b : box Z) :
  int64_box_TLWH b ->
  TLWH2TLBR_row b = Box (c0 b) (c1 b) (c0 b + c2 b)%Z (c1 b + c3 b)%Z /\
  valid_row (TLWH2TLBR_row b) = true /\
  TLBR2TLWH_row (TLWH2TLBR_row b) = b.
Proof.
  intros (H0 & H1 & H2 & H3 & Hx & Hy).
  assert (Ex : wrap64 (c2 b + c0 b) = (c0 b + c2 b)%Z).
  { rewrite wrap64_id; [lia |]. unfold in_int64, int64_min, int64_max in *. lia. }
  assert (Ey : wrap64 (c3 b + c1 b) = (c1 b + c3 b)%Z).
  { rewrite wrap64_id; [lia |]. unfold in_int64, int64_min, int64_max in *. lia. }
  unfold TLWH2TLBR_row, TLBR2TLWH_row, valid_row. simpl. rewrite Ex, Ey.
  split; [reflexivity |].
  split; [apply andb_true_iff; split; apply Z.leb_le; lia |].
  replace (c0 b + c2 b - c0 b)%Z with (c2 b) by lia.
  replace (c1 b + c3 b - c1 b)%Z with (c3 b) by lia.
  rewrite !wrap64_id by (unfold in_int64, int64_min, int64_max in *; lia).
  destruct b; reflexivity.
Qed.

Lemma int64_TLWH_rows (m : list (box Z)) :
  Forall int64_box_TLWH m ->
  bboxcheck_TLWH m = true /\
  bboxcheck_TLBR (map TLWH2TLBR_row m) = true /\
  map TLBR2TLWH_row (map TLWH2TLBR_row m) = m.
Proof.
  induction 1 as [|b m Hb Hm (I1 & I2 & I3)]; [repeat split |].
  destruct (int64_TLWH_row Hb) as (_ & V & R).
  cbn [map bboxcheck_TLWH bboxcheck_TLBR forallb].
  split; [| split].
  - destruct Hb as (_ & _ & H2 & H3 & _). simpl.
    destruct H2 as [H2 _], H3 as [H3 _].
    apply Z.leb_le in H2, H3. rewrite H2, H3. exact I1.
  - fold (valid_row (TLWH2TLBR_row b)). rewrite V. exact I2.
  - rewrite R, I3. reflexivity.
Qed.

(** X3: the round trip in the other direction.  For every TLWH box matrix
    of integer dtype with w, h >= 0 whose right and bottom edges x + w and
    y + h are representable, converting to TLBR and back returns exactly
    the input, with the checks of both conversions passed. *)
Theorem TLWH_TLBR_roundtrip_int64 :
  forall (bboxes_in : bbox_input Z) (m : list (box Z)) (debug : bool),
    safe_bbox bboxes_in debug = Ok m ->
    Forall int64_box_TLWH m ->
    roundtrip_TLWH bboxes_in debug = Ok m.
Proof.
  intros b m debug Hs Hm.
  destruct (int64_TLWH_rows Hm) as (C1 & C2 & R).
  unfold roundtrip_TLWH, bbox_TLWH2TLBR. rewrite Hs. cbn [bind].
  rewrite C1, py_assert_true. cbn [bind].
  unfold bbox_TLBR2TLWH. rewrite safe_bbox_ndarray. cbn [bind].
  rewrite C2, py_assert_true. cbn [bind]. rewrite R. reflexivity.
Qed.

Lemma TLWH_TLBR_roundtrip_int64_witness :
  roundtrip_TLWH (Rows [[0; 0; 5; 5]; [(-7); 3; 0; 12]])%Z true
  = Ok [Box 0 0 5 5; Box (-7) 3 0 12]%Z.
Proof.
  apply TLWH_TLBR_roundtrip_int64; [reflexivity |].
  repeat constructor; vm_compute; congruence.
Defined.

Lemma clip_TLWH_row (W Ht : Z) (b : box Z) :
  (0 <= W <= int64_max)%Z -> (0 <= Ht <= int64_max)%Z ->
  int64_box_TLWH b ->
  let c := TLBR2TLWH_row (clip_row W Ht (TLWH2TLBR_row b)) in
  clipped_TLWH W Ht b c /\ inside_TLWH W Ht c.
Proof.
  intros HW HH Hb. destruct (int64_TLWH_row Hb) as (E & _ & _).
  destruct Hb as (H0 & H1 & H2 & H3 & Hx & Hy).
  rewrite E. unfold clip_row, TLBR2TLWH_row. cbn [c0 c1 c2 c3].
  rewrite !int64_clamp. cbn [sub int64].
  unfold in_int64, int64_min, int64_max in *.
  rewrite !wrap64_id by (unfold in_int64, int64_min, int64_max; lia).
  unfold clipped_TLWH, inside_TLWH. cbn [c0 c1 c2 c3]. lia.
Qed.

(** X4: [clip_bboxes_TLWH] on integer boxes.  For every TLWH box matrix of
    integer dtype (w, h >= 0, edges representable) and every image size
    0 <= W, Ht the function returns; each returned box has its left and
    right edges x and x + w clamped into [0, W], its top and bottom edges
    y and y + h clamped into [0, Ht], so it lies in the image with a width
    and height that are not negative. *)
Theorem clip_bboxes_TLWH_inside_image_int64 :
  forall (bboxes_in : bbox_input Z) (m : list (box Z)) (W Ht : Z)
         (debug : bool),
    (0 <= W <= int64_max)%Z -> (0 <= Ht <= int64_max)%Z ->
    safe_bbox bboxes_in debug = Ok m ->
    Forall int64_box_TLWH m ->
    exists r,
      clip_bboxes_TLWH isinteger_int64 bboxes_in W Ht debug = Ok r /\
      Forall2 (clipped_TLWH W Ht) m r /\
      Forall (inside_TLWH W Ht) r.
Proof.
  intros b m W Ht debug HW HH Hs Hm.
  destruct (int64_TLWH_rows Hm) as (C1 & C2 & _).
  assert (IW : isinteger_int64 W = true) by (apply Z.leb_le; lia).
  assert (IH : isinteger_int64 Ht = true) by (apply Z.leb_le; lia).
  assert (LW : le zero W = true) by exact IW.
  assert (LH : le zero Ht = true) by exact IH.
  exists (map (fun b => TLBR2TLWH_row (clip_row W Ht (TLWH2TLBR_row b))) m).
  split; [| split].
  - unfold clip_bboxes_TLWH. rewrite Hs. cbn [bind].
    rewrite IW, IH, C1. cbn [andb]. rewrite !py_assert_true. cbn [bind].
    unfold bbox_TLWH2TLBR. rewrite safe_bbox_ndarray. cbn [bind].
    rewrite C1, py_assert_true. cbn [bind].
    rewrite (clip_bboxes_TLBR_ok isinteger_int64 (ndarray (map TLWH2TLBR_row m))
               (m := map TLWH2TLBR_row m) W Ht debug
               (safe_bbox_ndarray _ _) C2 IW IH).
    cbn [bind]. unfold bbox_TLBR2TLWH. rewrite safe_bbox_ndarray. cbn [bind].
    destruct (clipped_rows W Ht (map TLWH2TLBR_row m) LW LH C2) as (_ & _ & V).
    rewrite V, py_assert_true. cbn [bind]. rewrite !map_map. reflexivity.
  - clear Hs C1 C2. induction Hm as [|a m Ha Hm IHm]; cbn [map]; constructor.
    + exact (proj1 (clip_TLWH_row HW HH Ha)).
    + exact IHm.
  - clear Hs C1 C2. induction Hm as [|a m Ha Hm IHm]; cbn [map]; constructor.
    + exact (proj2 (clip_TLWH_row HW HH Ha)).
    + exact IHm.
Qed.

Lemma clip_bboxes_TLWH_inside_image_int64_witness :
  exists r,
    clip_bboxes_TLWH isinteger_int64 (Flat [(-3); 10; 53; 50])%Z 40%Z 40%Z true
      = Ok r /\
    Forall2 (clipped_TLWH 40 40) [Box (-3) 10 53 50]%Z r /\
    Forall (inside_TLWH 40 40) r.
Proof.
  apply (@clip_bboxes_TLWH_inside_image_int64
           (Flat [(-3); 10; 53; 50])%Z [Box (-3) 10 53 50]%Z 40%Z 40%Z true).
  - vm_compute. split; congruence.
  - vm_compute. split; congruence.
  - reflexivity.
  - repeat constructor; vm_compute; congruence.
Defined.

(** ** Points in the frame of a box *)

Lemma wrap64_add_sub (x a : Z) :
  in_int64 x -> wrap64 (wrap64 (x - a) + a) = x.
Proof.
  intros Hx. unfold wrap64.
  replace ((x - a + 2 ^ 63) mod 2 ^ 64 - 2 ^ 63 + a + 2 ^ 63)%Z
    with ((x - a + 2 ^ 63) mod 2 ^ 64 + a)%Z by lia.
  rewrite Zplus_mod_idemp_l.
  replace (x - a + 2 ^ 63 + a)%Z with (x + 2 ^ 63)%Z by lia.
  unfold in_int64, int64_min, int64_max in Hx.
  rewrite Z.mod_small by lia. lia.
Qed.

Lemma shift_back_row (a : Z) (r : list Z) :
  Forall in_int64 r ->
  map (fun x => wrap64 (x + a)) (map (fun x => wrap64 (x - a)) r) = r.
Proof.
  induction 1 as [|x r Hx Hr IH]; [reflexivity |].
  cbn [map]. rewrite IH, (wrap64_add_sub a Hx). reflexivity.
Qed.

(** X5: the two point conversions are inverse to each other on integer
    arrays.  Whenever [pts_conversion_bbox] returns for an int64 array of
    points and a box, [pts_conversion_back_bbox] with the same box returns
    the original array, entry for entry, the row of occlusion flags and a
    subtraction that wraps around included. *)
Theorem pts_conversion_roundtrip_int64 :
  forall (isbbox : list (box Z) -> bool) (pts q : array2 Z)
         (bboxes_in : bbox_input Z) (debug : bool),
    Forall (Forall in_int64) (rows2 pts) ->
    pts_conversion_bbox isbbox pts bboxes_in debug = Ok q ->
    pts_conversion_back_bbox isbbox q bboxes_in debug = Ok pts.
Proof.
  intros isbbox [n rows] q b debug Hr E.
  unfold pts_conversion_bbox, pts_conversion_back_bbox in *.
  destruct (safe_bbox b debug) as [m|e]; [| discriminate]. cbn [bind] in *.
  unfold pts_shape_msg, is2dptsarray, is2dptsarray_occlusion, shape0 in *.
  cbn [rows2 shape1] in *.
  destruct (py_assert debug (Nat.eqb (List.length rows) 2
                             || Nat.eqb (List.length rows) 3) _) as [[]|e] eqn:A1;
    [| discriminate].
  destruct (py_assert debug (isbbox m) _) as [[]|e] eqn:A2; [| discriminate].
  cbn [bind] in E. unfold shift_pts in E. cbn [rows2 shape1] in E.
  destruct rows as [|r0 [|r1 rest]]; [discriminate | |].
  - unfold getitem in E. cbn [nth_error bind] in E.
    destruct m; discriminate.
  - unfold getitem in E. cbn [nth_error bind] in E.
    destruct m as [|bx m']; [discriminate |].
    cbn [bind update] in E. inversion E; subst q; clear E.
    cbn [rows2 shape1 List.length] in *. rewrite A1. cbn [bind].
    unfold shift_pts, getitem.
    cbn [rows2 shape1 nth_error bind update add sub int64].
    inversion Hr as [|? ? H0 Hr']; subst. inversion Hr' as [|? ? H1 _]; subst.
    rewrite (shift_back_row (c0 bx) H0), (shift_back_row (c1 bx) H1).
    reflexivity.
Qed.

Lemma pts_conversion_roundtrip_int64_witness :
  pts_conversion_back_bbox (fun _ => true)
    (Array2 3 [[(-8); 0; 32]; [(-13); 5; (-20)]; [1; 0; 1]])%Z
    (Flat [10; 20; 50; 60])%Z true
  = Ok (Array2 3 [[2; 10; 42]; [7; 25; 0]; [1; 0; 1]])%Z.
Proof.
  apply pts_conversion_roundtrip_int64.
  - repeat constructor; vm_compute; congruence.
  - reflexivity.
Defined.

(** ** The box around a set of points *)

Section Reductions.

Context {T : Type} {D : Dtype T} {O : DtypeOrder T}.

Lemma fold_np_minimum (l : list T) (x : T) :
  isnan x = false -> Forall (fun e => isnan e = false) l ->
  In (fold_left np_minimum l x) (x :: l) /\
  Forall (fun e => le (fold_left np_minimum l x) e = true) (x :: l).
Proof.
  intros Hx Hl. revert x Hx. induction Hl as [|y l Hy Hl IH]; intros x Hx.
  - cbn [fold_left]. split; [left; reflexivity |].
    constructor; [apply le_refl; exact Hx | constructor].
  - cbn [fold_left].
    destruct (np_minimum_cases x y Hx Hy) as [[L E]|[_ [L E]]]; rewrite E.
    + destruct (IH x Hx) as [I F]. inversion F as [|? ? Fx Fl]; subst.
      split.
      * destruct I as [I|I]; [left; exact I | right; right; exact I].
      * constructor; [exact Fx |].
        constructor; [exact (le_trans _ _ _ Fx L) | exact Fl].
    + destruct (IH y Hy) as [I F]. inversion F as [|? ? Fy Fl]; subst.
      split.
      * right. exact I.
      * constructor; [exact (le_trans _ _ _ Fy L) |].
        constructor; [exact Fy | exact Fl].
Qed.

Lemma fold_np_maximum (l : list T) (x : T) :
  isnan x = false -> Forall (fun e => isnan e = false) l ->
  In (fold_left np_maximum l x) (x :: l) /\
  Forall (fun e => le e (fold_left np_maximum l x) = true) (x :: l).
Proof.
  intros Hx Hl. revert x Hx. induction Hl as [|y l Hy Hl IH]; intros x Hx.
  - cbn [fold_left]. split; [left; reflexivity |].
    constructor; [apply le_refl; exact Hx | constructor].
  - cbn [fold_left].
    destruct (np_maximum_cases x y Hx Hy) as [[L E]|[_ [L E]]]; rewrite E.
    + destruct (IH x Hx) as [I F]. inversion F as [|? ? Fx Fl]; subst.
      split.
      * destruct I as [I|I]; [left; exact I | right; right; exact I].
      * constructor; [exact Fx |].
        constructor; [exact (le_trans _ _ _ L Fx) | exact Fl].
    + destruct (IH y Hy) as [I F]. inversion F as [|? ? Fy Fl]; subst.
      split.
      * right. exact I.
      * constructor; [exact (le_trans _ _ _ L Fy) |].
        constructor; [exact Fy | exact Fl].
Qed.

(** The minimum and the maximum of an array without NaN are entries of the
    array that bound all the others. *)
Lemma np_min_max (a : list T) :
  a <> [] -> Forall (fun e => isnan e = false) a ->
  exists lo hi,
    np_min a = Ok lo /\ np_max a = Ok hi /\ In lo a /\ In hi a /\
    Forall (fun e => le lo e = true /\ le e hi = true) a.
Proof.
  intros Hne Ha. destruct a as [|x a]; [congruence |].
  inversion Ha as [|? ? Hx Hl]; subst.
  destruct (fold_np_minimum x Hx Hl) as [I1 F1].
  destruct (fold_np_maximum x Hx Hl) as [I2 F2].
  exists (fold_left np_minimum a x), (fold_left np_maximum a x).
  repeat (split; [first [reflexivity | assumption] |]).
  rewrite Forall_forall in *. intros e He. split; auto.
Qed.

End Reductions.

(** X6: [pts2bbox] returns the tight box around the points.  For a 2 x N
    or 3 x N float array, N >= 2, whose coordinates are not NaN and are held
    exactly by a float32 array (pixel coordinates are), the function
    returns one row [x_min, y_min, x_max, y_max]: each of the four values
    is a coordinate of one of the points, and every point (x, y) has
    x_min <= x <= x_max and y_min <= y <= y_max. *)
Theorem pts2bbox_encloses :
  forall (n : nat) (xs ys : list float) (occ : list (list float))
         (debug : bool),
    (List.length occ <= 1)%nat ->
    List.length xs = n -> List.length ys = n -> (2 <= n)%nat ->
    Forall (fun v => PrimFloat.is_nan v = false /\ float32_exact v) xs ->
    Forall (fun v => PrimFloat.is_nan v = false /\ float32_exact v) ys ->
    exists b,
      pts2bbox (Array2 n (xs :: ys :: occ)) debug = Ok [b] /\
      In (c0 b) xs /\ In (c2 b) xs /\ In (c1 b) ys /\ In (c3 b) ys /\
      Forall (fun x => PrimFloat.leb (c0 b) x = true /\
                       PrimFloat.leb x (c2 b) = true) xs /\
      Forall (fun y => PrimFloat.leb (c1 b) y = true /\
                       PrimFloat.leb y (c3 b) = true) ys.
Proof.
  intros n xs ys occ debug Ho Lx Ly Hn Hx Hy.
  assert (Nx : xs <> []) by (intros ->; simpl in Lx; lia).
  assert (Ny : ys <> []) by (intros ->; simpl in Ly; lia).
  assert (Hx' : Forall (fun e => isnan e = false) xs).
  { eapply Forall_impl; [| exact Hx]. intros a [Ha _]. exact Ha. }
  assert (Hy' : Forall (fun e => isnan e = false) ys).
  { eapply Forall_impl; [| exact Hy]. intros a [Ha _]. exact Ha. }
  destruct (np_min_max Nx Hx') as (x0 & x1 & Ex0 & Ex1 & Ix0 & Ix1 & Fx).
  destruct (np_min_max Ny Hy') as (y0 & y1 & Ey0 & Ey1 & Iy0 & Iy1 & Fy).
  assert (X : forall l v,
             Forall (fun v => PrimFloat.is_nan v = false /\ float32_exact v) l ->
             In v l -> to_float32 v = v).
  { intros l v Hl Hv. rewrite Forall_forall in Hl. exact (proj2 (Hl v Hv)). }
  exists (Box x0 y0 x1 y1). split.
  - unfold pts2bbox, is2dptsarray, is2dptsarray_occlusion, shape0.
    cbn [rows2 shape1 List.length].
    assert (S : (Nat.eqb (S (S (List.length occ))) 2
                 || Nat.eqb (S (S (List.length occ))) 3) = true).
    { destruct occ as [|o [|o' occ']]; [reflexivity | reflexivity |].
      simpl in Ho. lia. }
    rewrite S, py_assert_true. cbn [bind].
    replace (Nat.leb 2 n) with true by (symmetry; apply Nat.leb_le; exact Hn).
    rewrite py_assert_true. cbn [bind].
    unfold getitem. cbn [nth_error bind].
    rewrite Ex0. cbn [bind]. rewrite Ey0. cbn [bind].
    rewrite Ex1. cbn [bind]. rewrite Ey1. cbn [bind].
    rewrite (X xs x0 Hx Ix0), (X xs x1 Hx Ix1),
            (X ys y0 Hy Iy0), (X ys y1 Hy Iy1).
    reflexivity.
  - cbn [c0 c1 c2 c3]. repeat (split; [assumption |]). exact Fy.
Qed.

Lemma pts2bbox_encloses_witness :
  exists b,
    pts2bbox (Array2 3 [[2; 5; 4]; [3; 1; 9]])%float true = Ok [b] /\
    In (c0 b) [2; 5; 4]%float /\ In (c2 b) [2; 5; 4]%float /\
    In (c1 b) [3; 1; 9]%float /\ In (c3 b) [3; 1; 9]%float /\
    Forall (fun x => PrimFloat.leb (c0 b) x = true /\
                     PrimFloat.leb x (c2 b) = true) [2; 5; 4]%float /\
    Forall (fun y => PrimFloat.leb (c1 b) y = true /\
                     PrimFloat.leb y (c3 b) = true) [3; 1; 9]%float.
Proof.
  apply (@pts2bbox_encloses 3 [2; 5; 4]%float [3; 1; 9]%float [] true).
  - simpl. lia.
  - reflexivity.
  - reflexivity.
  - lia.
  - repeat constructor; vm_compute; reflexivity.
  - repeat constructor; vm_compute; reflexivity.
Defined.

(** ** Regression targets: further laws *)

Module RegressionMore.

Import Regression RegressionFacts.

Local Open Scope R_scope.

Lemma encode_row_self (g : geometry) :
  pos_geo g -> encode_row g g = [0; 0; 0; 0].
Proof.
  intros [Hw Hh]. unfold encode_row.
  replace (g_width g / g_width g) with 1 by (field; lra).
  replace (g_height g / g_height g) with 1 by (field; lra).
  rewrite ln_1.
  repeat (apply (f_equal2 (@cons R)); [field; lra |]). reflexivity.
Qed.

Lemma zip_with_diag {A B : Type} (f : A -> A -> B) (l : list A) :
  zip_with f l l = map (fun x => f x x) l.
Proof. induction l as [|x l IH]; [reflexivity |]. simpl. rewrite IH. reflexivity. Qed.

(** X7: the general law behind the off-by-one.  For anchors and targets of
    positive size, N x 4 each, decoding the encoding returns, in exact
    arithmetic, every target with x1 and y1 as they were and with x2 and y2
    one pixel larger. *)
Theorem decode_of_encode_adds_one :
  forall (ex_rois gt_rois : matrix) (debug : bool),
    ncols ex_rois = 4%nat -> ncols gt_rois = 4%nat ->
    nrows ex_rois = nrows gt_rois ->
    Forall positive_size (mrows ex_rois) ->
    Forall positive_size (mrows gt_rois) ->
    (targets <- bbox_transform ex_rois gt_rois ;;
     bbox_transform_inv ex_rois targets debug)
    = Ok (Matrix 4 (map (fun t => [nth 0 t 0; nth 1 t 0;
                                   nth 2 t 0 + 1; nth 3 t 0 + 1])
                        (mrows gt_rois))).
Proof.
  intros ex_rois gt_rois debug Ce Cg Hn Pe Pg.
  exact (@decode_encode ex_rois gt_rois debug Ce Cg Hn Pe Pg).
Qed.

Lemma decode_of_encode_adds_one_witness :
  (targets <- bbox_transform (Matrix 4 [[1; 1; 4; 8]; [0; 0; 9; 9]])
                             (Matrix 4 [[0; 2; 5; 6]; [2; 3; 11; 14]]) ;;
   bbox_transform_inv (Matrix 4 [[1; 1; 4; 8]; [0; 0; 9; 9]]) targets true)
  = Ok (Matrix 4 [[0; 2; 5 + 1; 6 + 1]; [2; 3; 11 + 1; 14 + 1]]).
Proof.
  apply (@decode_of_encode_adds_one
           (Matrix 4 [[1; 1; 4; 8]; [0; 0; 9; 9]])
           (Matrix 4 [[0; 2; 5; 6]; [2; 3; 11; 14]]) true).
  - reflexivity.
  - reflexivity.
  - reflexivity.
  - repeat constructor; unfold geometry_of; cbn [g_width g_height nth]; lra.
  - repeat constructor; unfold geometry_of; cbn [g_width g_height nth]; lra.
Defined.

(** X8: a box encoded against itself has the targets (0, 0, 0, 0).  For
    every N x 4 matrix of boxes of positive size, [bbox_transform] of the
    matrix with itself returns N rows of zeros. *)
Theorem bbox_transform_self_is_zero :
  forall (rois : matrix),
    ncols rois = 4%nat ->
    Forall positive_size (mrows rois) ->
    bbox_transform rois rois
    = Ok (Matrix 4 (map (fun _ => [0; 0; 0; 0]) (mrows rois))).
Proof.
  intros rois C P.
  rewrite bbox_transform_ok by (assumption || reflexivity).
  rewrite zip_with_diag, map_map. do 2 f_equal.
  induction P as [|r rows Pr P IH]; [reflexivity |].
  cbn [map]. rewrite IH. f_equal. apply encode_row_self. exact Pr.
Qed.

Lemma bbox_transform_self_is_zero_witness :
  bbox_transform (Matrix 4 [[0; 0; 9; 9]; [3; 1; 3; 20]])
                 (Matrix 4 [[0; 0; 9; 9]; [3; 1; 3; 20]])
  = Ok (Matrix 4 [[0; 0; 0; 0]; [0; 0; 0; 0]]).
Proof.
  apply (@bbox_transform_self_is_zero (Matrix 4 [[0; 0; 9; 9]; [3; 1; 3; 20]])).
  - reflexivity.
  - repeat constructor; unfold geometry_of; cbn [g_width g_height nth]; lra.
Defined.

Lemma mapM_total {A B : Type} (h : A -> B) (l : list A) :
  mapM (fun x => Ok (h x)) l = Ok (map h l).
Proof.
  induction l as [|x l IH]; [reflexivity |]. cbn [mapM bind map].
  rewrite IH. reflexivity.
Qed.

Lemma zipM_total {A B C : Type} (g : A -> B -> C) (a : list A) (b : list B) :
  zipM (fun x y => Ok (g x y)) a b = Ok (zip_with g a b).
Proof.
  revert b. induction a as [|x a IH]; intros [|y b]; try reflexivity.
  cbn [zipM bind zip_with]. rewrite IH. reflexivity.
Qed.

Lemma zip_with_In {A B C : Type} (g : A -> B -> C) (a : list A) (b : list B) :
  Forall (fun z => exists x y, In x a /\ In y b /\ z = g x y) (zip_with g a b).
Proof.
  revert b. induction a as [|x a IH]; intros [|y b]; try constructor.
  - exists x, y. repeat split; left; reflexivity.
  - eapply Forall_impl; [| exact (IH b)].
    intros z (x' & y' & Hx & Hy & E). exists x', y'.
    repeat split; [right; exact Hx | right; exact Hy | exact E].
Qed.

(** Every row an elementwise operation returns comes from a row of each
    operand, broadcast or not. *)
Lemma bcast2_In {A B C : Type} (g : A -> B -> C) (a : list A) (b : list B)
    (r : list C) :
  bcast2 (fun x y => Ok (g x y)) a b = Ok r ->
  Forall (fun z => exists x y, In x a /\ In y b /\ z = g x y) r.
Proof.
  unfold bcast2. destruct (Nat.eqb (List.length a) (List.length b)).
  - rewrite zipM_total. intros E. inversion E; subst. apply zip_with_In.
  - destruct a as [|x [|x' a]].
    + destruct b as [|y [|y' b]]; try discriminate.
      intros E. inversion E; subst. constructor.
    + rewrite mapM_total. intros E. inversion E; subst.
      apply Forall_forall. intros z Hz. apply in_map_iff in Hz.
      destruct Hz as (y & E' & Hy). exists x, y.
      repeat split; [left; reflexivity | exact Hy | symmetry; exact E'].
    + destruct b as [|y [|y' b]]; try discriminate.
      rewrite mapM_total. intros E. inversion E; subst.
      apply Forall_forall. intros z Hz.
      change (In z (map (fun x0 => g x0 y) (x :: x' :: a))) in Hz.
      apply in_map_iff in Hz.
      destruct Hz as (x0 & E' & Hx). exists x0, y.
      repeat split; [exact Hx | left; reflexivity | symmetry; exact E'].
Qed.







Lemma decode_row_length (g : geometry) (k : nat) (d : list R) :
  List.length d = (4 * k)%nat -> List.length (decode_row g d) = (4 * k)%nat.
Proof.
  revert d. induction k as [|k IH]; intros d L.
  - destruct d; [reflexivity | discriminate].
  - destruct d as [|dx [|dy [|dw [|dh d]]]]; simpl in L; try lia.
    cbn [decode_row List.length]. rewrite (IH d) by lia. lia.
Qed.

(** X11: the decoded matrix is a matrix of the shape of the deltas.  For
    a deltas matrix whose rows all have [ncols] entries: whenever
    [bbox_transform_inv] returns, every row of the result has exactly that
    many entries (one group of four per class, none lost in the decoding),
    and the result has no rows when there are no anchors and as many rows
    as the deltas otherwise. *)
Theorem bbox_transform_inv_shape :
  forall (boxes deltas : matrix) (debug : bool) (r : matrix),
    Forall (fun row => List.length row = ncols deltas) (mrows deltas) ->
    bbox_transform_inv boxes deltas debug = Ok r ->
    ncols r = ncols deltas /\
    Forall (fun row => List.length row = ncols deltas) (mrows r) /\
    nrows r = (if Nat.eqb (nrows boxes) 0 then 0%nat else nrows deltas).
Proof.
  intros boxes deltas debug r W E. unfold bbox_transform_inv in E.
  destruct (Nat.eqb (nrows boxes) 0).
  { inversion E; subst. repeat split. constructor. }
  destruct (Nat.ltb (ncols boxes) 4); [discriminate |].
  destruct (debug && Nat.eqb (nrows deltas) 0); [discriminate |].
  destruct (bcast2 _ (mrows deltas) (map geometry_of (mrows boxes)))
    as [pred|e] eqn:B; [| discriminate].
  cbn [bind] in E.
  destruct (Nat.eqb (Nat.modulo (ncols deltas) 4) 0) eqn:M;
    cbn [negb] in E; [| discriminate].
  destruct (Nat.eqb (List.length pred) (nrows deltas)) eqn:L; [| discriminate].
  inversion E; subst r; clear E. cbn [ncols mrows].
  split; [reflexivity |]. split.
  - apply Nat.eqb_eq in M.
    assert (K : ncols deltas = (4 * (ncols deltas / 4))%nat).
    { pose proof (Nat.div_mod_eq (ncols deltas) 4) as Q. lia. }
    apply (bcast2_In (fun d b => decode_row b d)) in B.
    rewrite Forall_forall in *. intros row Hrow.
    destruct (B row Hrow) as (d & g & Hd & _ & ->).
    rewrite K. apply decode_row_length. rewrite <- K. exact (W d Hd).
  - unfold nrows at 1. cbn [mrows]. apply Nat.eqb_eq. exact L.
Qed.

Lemma bbox_transform_inv_shape_witness :
  ncols (Matrix 8 [decode_row (geometry_of [0; 0; 9; 9])
                              [1; -2; 3; -4; 0; 0; 0; 0]]) = 8%nat /\
  Forall (fun row => List.length row = 8%nat)
    (mrows (Matrix 8 [decode_row (geometry_of [0; 0; 9; 9])
                                 [1; -2; 3; -4; 0; 0; 0; 0]])) /\
  nrows (Matrix 8 [decode_row (geometry_of [0; 0; 9; 9])
                              [1; -2; 3; -4; 0; 0; 0; 0]]) = 1%nat.
Proof.
  apply (@bbox_transform_inv_shape
           (Matrix 4 [[0; 0; 9; 9]])
           (Matrix 8 [[1; -2; 3; -4; 0; 0; 0; 0]]) true).
  - repeat constructor.
  - reflexivity.
Defined.

End RegressionMore.

(** ** Inverse rotation *)

Module RotationFacts.

Import Regression Rotation.

Local Open Scope R_scope.

(** On a float box the normalized corners are
    [(x - floor(W/2)) / W * 2], [(y - floor(H/2)) / H * 2]. *)
Lemma bbox_rotation_inv_float (x1 y1 x2 y2 : R) (rest : list R) (angle : R)
    (Ht W : Z) (debug : bool) :
  IZR W <> 0 -> IZR Ht <> 0 -> debug = false \/ rest = [] ->
  bbox_rotation_inv (FloatBox (x1 :: y1 :: x2 :: y2 :: rest)) angle (Ht, W) debug
  = Ok (rotated ((x1 - IZR (W / 2)) / IZR W * 2)
                ((y1 - IZR (Ht / 2)) / IZR Ht * 2)
                ((x2 - IZR (W / 2)) / IZR W * 2)
                ((y2 - IZR (Ht / 2)) / IZR Ht * 2) angle (Ht, W)).
Proof.
  intros HW HH Hd. unfold bbox_rotation_inv.
  replace (py_assert debug _ _) with (Ok tt)
    by (destruct Hd as [-> | ->]; [reflexivity | destruct debug; reflexivity]).
  cbn [bind fst snd]. unfold normalize, getitem. cbn [nth_error bind].
  unfold normalize_float, np_div.
  destruct (Req_dec_T (IZR W) 0) as [E|_]; [contradiction |].
  destruct (Req_dec_T (IZR Ht) 0) as [E|_]; [contradiction |].
  cbn [bind dot_affine fst snd]. reflexivity.
Qed.

(** A call that returns has normalized the two corners; the angle enters
    after that. *)
Lemma bbox_rotation_inv_normalized (b : box1d) (angle : R) (image_shape : Z * Z)
    (debug : bool) (r : list R) :
  bbox_rotation_inv b angle image_shape debug = Ok r ->
  exists n1 n2 n3 n4,
    forall angle',
      bbox_rotation_inv b angle' image_shape debug
      = Ok (rotated n1 n2 n3 n4 angle' image_shape).
Proof.
  unfold bbox_rotation_inv. intros E.
  destruct (py_assert debug _ _) as [[]|e]; [| discriminate].
  cbn [bind] in *.
  destruct (normalize b 0 (snd image_shape)) as [n1|e]; [| discriminate].
  cbn [bind] in *.
  destruct (normalize b 1 (fst image_shape)) as [n2|e]; [| discriminate].
  cbn [bind] in *.
  destruct (normalize b 2 (snd image_shape)) as [n3|e]; [| discriminate].
  cbn [bind] in *.
  destruct (normalize b 3 (fst image_shape)) as [n4|e]; [| discriminate].
  cbn [bind] in *.
  exists n1, n2, n3, n4. intros angle'. reflexivity.
Qed.

(** Rotating the rotated corners again adds the angles. *)
Lemma rotated_again (n1 n2 n3 n4 a1 a2 : R) (Ht W : Z) (debug : bool) :
  IZR W <> 0 -> IZR Ht <> 0 ->
  bbox_rotation_inv (FloatBox (rotated n1 n2 n3 n4 a1 (Ht, W))) a2 (Ht, W) debug
  = Ok (rotated n1 n2 n3 n4 (a1 + a2) (Ht, W)).
Proof.
  intros HW HH. unfold rotated at 1. cbv zeta.
  rewrite bbox_rotation_inv_float by (try assumption; right; reflexivity).
  unfold rotated, denormalize, rad. cbn [fst snd].
  replace ((a1 + a2) * PI / 180) with (a1 * PI / 180 + a2 * PI / 180) by lra.
  rewrite cos_plus, sin_plus.
  f_equal.
  repeat (apply (f_equal2 (@cons R)); [field; repeat split; assumption |]).
  reflexivity.
Qed.

Lemma rotated_zero (x1 y1 x2 y2 angle : R) (Ht W : Z) :
  IZR W <> 0 -> IZR Ht <> 0 -> angle = 0 ->
  rotated ((x1 - IZR (W / 2)) / IZR W * 2) ((y1 - IZR (Ht / 2)) / IZR Ht * 2)
          ((x2 - IZR (W / 2)) / IZR W * 2) ((y2 - IZR (Ht / 2)) / IZR Ht * 2)
          angle (Ht, W)
  = [x1; y1; x2; y2].
Proof.
  intros HW HH ->. unfold rotated, denormalize, rad. cbn [fst snd].
  replace (0 * PI / 180) with 0 by lra. rewrite cos_0, sin_0.
  repeat (apply (f_equal2 (@cons R)); [field; repeat split; assumption |]). reflexivity.
Qed.

(** X12: on a float box the rotation by 0 degrees is the identity.  For
    every float array of four coordinates and every image of positive
    width and height, [bbox_rotation_inv] at angle 0 returns the box as it
    is, in exact arithmetic (the floor of width/2 that Python 2 takes for
    the center cancels).  An int64 box is normalized with floor divisions
    and is not covered. *)
Theorem bbox_rotation_inv_angle_zero :
  forall (x1 y1 x2 y2 : R) (Ht W : Z) (debug : bool),
    (0 < W)%Z -> (0 < Ht)%Z ->
    bbox_rotation_inv (FloatBox [x1; y1; x2; y2]) 0 (Ht, W) debug
    = Ok [x1; y1; x2; y2].
Proof.
  intros x1 y1 x2 y2 Ht W debug HW HH.
  apply IZR_lt in HW, HH.
  rewrite bbox_rotation_inv_float by (try lra; right; reflexivity).
  f_equal. apply rotated_zero; lra.
Qed.

Lemma bbox_rotation_inv_angle_zero_witness :
  bbox_rotation_inv (FloatBox [10; 20; 110; 220]) 0 (481%Z, 641%Z) true
  = Ok [10; 20; 110; 220].
Proof.
  apply bbox_rotation_inv_angle_zero; reflexivity.
Defined.

(** X13: two rotations in a row are the rotation by the sum of the angles,
    in exact arithmetic.  For an image of positive width and height and a
    box of either dtype: whenever [bbox_rotation_inv] returns for the box
    and an angle a1, applying it to the (float) result with an angle a2
    gives what it gives for the box and a1 + a2.  On a float box of four
    coordinates the rotation by a and then by -a returns the box. *)
Theorem bbox_rotation_inv_compose :
  (forall (b : box1d) (b1 : list R) (a1 a2 : R) (Ht W : Z) (debug : bool),
      (0 < W)%Z -> (0 < Ht)%Z ->
      bbox_rotation_inv b a1 (Ht, W) debug = Ok b1 ->
      bbox_rotation_inv (FloatBox b1) a2 (Ht, W) debug
      = bbox_rotation_inv b (a1 + a2) (Ht, W) debug) /\
  (forall (x1 y1 x2 y2 a : R) (Ht W : Z) (debug : bool),
      (0 < W)%Z -> (0 < Ht)%Z ->
      (b1 <- bbox_rotation_inv (FloatBox [x1; y1; x2; y2]) a (Ht, W) debug ;;
       bbox_rotation_inv (FloatBox b1) (- a) (Ht, W) debug)
      = Ok [x1; y1; x2; y2]).
Proof.
  split.
  - intros b b1 a1 a2 Ht W debug HW HH E.
    apply IZR_lt in HW, HH.
    destruct (bbox_rotation_inv_normalized _ _ _ _ E)
      as (n1 & n2 & n3 & n4 & N).
    rewrite (N a1) in E. inversion E; subst b1; clear E.
    rewrite (N (a1 + a2)). apply rotated_again; lra.
  - intros x1 y1 x2 y2 a Ht W debug HW HH.
    apply IZR_lt in HW, HH.
    rewrite bbox_rotation_inv_float by (try lra; right; reflexivity).
    cbn [bind]. rewrite rotated_again by lra.
    f_equal. apply rotated_zero; lra.
Qed.

Lemma bbox_rotation_inv_compose_witness :
  bbox_rotation_inv
    (FloatBox (rotated (IZR (normalize_int 10 640)) (IZR (normalize_int 20 480))
                       (IZR (normalize_int 110 640)) (IZR (normalize_int 220 480))
                       30 (480%Z, 640%Z)))
    (-30) (480%Z, 640%Z) true
  = bbox_rotation_inv (IntBox [10; 20; 110; 220]%Z) (30 + -30)
                      (480%Z, 640%Z) true /\
  (b1 <- bbox_rotation_inv (FloatBox [10; 20; 110; 220]) 30
                           (480%Z, 640%Z) true ;;
   bbox_rotation_inv (FloatBox b1) (- 30) (480%Z, 640%Z) true)
  = Ok [10; 20; 110; 220].
Proof.
  split.
  - apply (proj1 bbox_rotation_inv_compose (IntBox [10; 20; 110; 220]%Z));
      reflexivity.
  - apply (proj2 bbox_rotation_inv_compose); reflexivity.
Defined.

(** ** The batch rotation never gets past its first box *)






End RotationFacts.

(** ** Enlargement and center crop: when they return *)

(** X15: [bbox_enlarge] returns only for an array of at most one box.
    Whatever the ratios, the minimum sizes and the debug flag, a call that
    returns was given zero rows or one row, and the result has as many rows
    as the argument; with two or more rows the builtin [max] on the arrays
    of widths stops the call (or, under debug, the format check does). *)
Theorem bbox_enlarge_returns_for_one_row :
  forall (bbox r : list (box float)) (ratio : float)
         (width_ratio height_ratio : option float) (min_length : float)
         (min_width min_height : option float) (debug : bool),
    bbox_enlarge bbox ratio width_ratio height_ratio min_length
                 min_width min_height debug = Ok r ->
    (List.length bbox <= 1)%nat /\ List.length r = List.length bbox.
Proof.
  intros bbox r ratio wr hr ml mw mh debug E. unfold bbox_enlarge in E.
  destruct (py_assert debug (bboxcheck_TLBR bbox) _) as [[]|e]; [| discriminate].
  cbn [bind] in E.
  destruct bbox as [|b1 [|b2 rest]].
  - destruct wr, hr, mh, mw; cbn in E; inversion E; split; auto.
  - destruct wr, hr, mh, mw; cbn [map py_max combine fst snd bind] in E;
      repeat match type of E with
             | context [if ?c then _ else _] => destruct c
             end;
      cbn [bind enlarge_rows] in E; inversion E; split; auto.
  - destruct wr, hr, mh, mw; cbn [map py_max combine bind] in E; discriminate.
Qed.

Lemma bbox_enlarge_returns_for_one_row_witness :
  (List.length [Box 0%float 0%float 10%float 10%float] <= 1)%nat /\
  List.length [Box (-1)%float (-1)%float 11%float 11%float]
  = List.length [Box 0%float 0%float 10%float 10%float].
Proof.
  apply (@bbox_enlarge_returns_for_one_row
           [Box 0%float 0%float 10%float 10%float]
           [Box (-1)%float (-1)%float 11%float 11%float]
           0.2%float None None 0%float None None true).
  vm_compute. reflexivity.
Defined.

(** X16: a two-element center box without the image size.  When the input
    is an N x 2 matrix of crop sizes and the width or the height of the
    image is missing, [get_center_crop_bbox] raises: the AssertionError of
    its check under debug, and without debug the TypeError of dividing
    None by 2. *)
Theorem get_center_crop_bbox_missing_size :
  forall (T : Type) (C : CropDtype T) (center_bboxes_in : bbox_input T)
         (rows : list (T * T)) (im_width im_height : option pynum)
         (debug : bool),
    safe_center_bbox center_bboxes_in debug = Ok (Centers2 rows) ->
    im_width = None \/ im_height = None ->
    get_center_crop_bbox center_bboxes_in im_width im_height debug
    = Raise (if debug
             then AssertionError
                    "the image shape should be known when center is not provided"
             else TypeError
                    "unsupported operand type(s) for /: 'NoneType' and 'int'").
Proof.
  intros T C b rows w h debug Hs Hn. unfold get_center_crop_bbox.
  rewrite Hs. cbn [bind].
  destruct Hn as [-> | ->]; [| destruct w]; destruct debug; reflexivity.
Qed.

Lemma get_center_crop_bbox_missing_size_witness :
  get_center_crop_bbox (Flat [4%Z; 4%Z]) (Some (PyInt 5)) None false
  = Raise (TypeError "unsupported operand type(s) for /: 'NoneType' and 'int'").
Proof.
  apply (@get_center_crop_bbox_missing_size Z int64_crop (Flat [4%Z; 4%Z])
           [(4%Z, 4%Z)] (Some (PyInt 5)) None false).
  - reflexivity.
  - right. reflexivity.
Defined.

(** ** Regression targets do not depend on where the pair of boxes is *)

Module RegressionTranslation.

Import Regression RegressionFacts.

Local Open Scope R_scope.

Lemma mapM_map {A A' B : Type} (f : A -> result B) (h : A' -> A) (l : list A') :
  mapM f (map h l) = mapM (fun x => f (h x)) l.
Proof.
  induction l as [|x l IH]; [reflexivity |]. cbn [map mapM]. rewrite IH.
  reflexivity.
Qed.

Lemma mapM_ext {A B : Type} (f f' : A -> result B) (l : list A) :
  (forall x, f x = f' x) -> mapM f l = mapM f' l.
Proof.
  intros E. induction l as [|x l IH]; [reflexivity |]. cbn [mapM].
  rewrite E, IH. reflexivity.
Qed.

Lemma zipM_map {A A' B B' C : Type} (f : A -> B -> result C) (h1 : A' -> A)
    (h2 : B' -> B) (a : list A') (b : list B') :
  zipM f (map h1 a) (map h2 b) = zipM (fun x y => f (h1 x) (h2 y)) a b.
Proof.
  revert b. induction a as [|x a IH]; intros [|y b]; try reflexivity.
  cbn [map zipM]. rewrite IH. reflexivity.
Qed.

Lemma zipM_ext {A B C : Type} (f f' : A -> B -> result C) (a : list A)
    (b : list B) :
  (forall x y, f x y = f' x y) -> zipM f a b = zipM f' a b.
Proof.
  intros E. revert b. induction a as [|x a IH]; intros [|y b]; try reflexivity.
  cbn [zipM]. rewrite E, IH. reflexivity.
Qed.

(** Broadcasting sees the operands through their lengths only. *)
Lemma bcast2_map {A A' B B' C : Type} (f : A -> B -> result C)
    (f' : A' -> B' -> result C) (h1 : A' -> A) (h2 : B' -> B)
    (a : list A') (b : list B') :
  (forall x y, f (h1 x) (h2 y) = f' x y) ->
  bcast2 f (map h1 a) (map h2 b) = bcast2 f' a b.
Proof.
  intros E. unfold bcast2. rewrite !length_map.
  destruct (Nat.eqb (List.length a) (List.length b)).
  - rewrite zipM_map. apply zipM_ext. exact E.
  - destruct a as [|x [|x' a]]; cbn [map].
    + destruct b as [|y [|y' b]]; reflexivity.
    + rewrite mapM_map. apply mapM_ext. intros y. apply E.
    + destruct b as [|y [|y' b]]; cbn [map]; try reflexivity.
      change (h1 x :: h1 x' :: map h1 a) with (map h1 (x :: x' :: a)).
      rewrite mapM_map. apply mapM_ext. intros z. apply E.
Qed.

Lemma geometry_of_translate (tx ty : R) (row : list R) :
  geometry_of (translate tx ty row)
  = Geometry (g_width (geometry_of row)) (g_height (geometry_of row))
             (g_ctr_x (geometry_of row) + tx) (g_ctr_y (geometry_of row) + ty).
Proof.
  unfold geometry_of, translate. cbn [nth g_width g_height g_ctr_x g_ctr_y].
  apply f_equal4; lra.
Qed.

(** X17: in exact arithmetic the targets are translation invariant.  The
    model is over the real numbers and rounding is not part of it: there,
    moving the anchors and the ground-truth boxes by the same offset
    (tx, ty) changes nothing in what [bbox_transform] gives: the same
    targets, the same IndexError or ValueError, or, for the same inputs, no
    finite value (a zero anchor width or height, a ratio that is not
    positive), where numpy gives inf or nan. *)
Theorem bbox_transform_translation_invariant :
  forall (ex_rois gt_rois : matrix) (tx ty : R),
    bbox_transform
      (Matrix (ncols ex_rois) (map (translate tx ty) (mrows ex_rois)))
      (Matrix (ncols gt_rois) (map (translate tx ty) (mrows gt_rois)))
    = bbox_transform ex_rois gt_rois.
Proof.
  intros [ce ex] [cg gt] tx ty. unfold bbox_transform. cbn [ncols mrows].
  destruct (Nat.ltb ce 4); [reflexivity |].
  destruct (Nat.ltb cg 4); [reflexivity |].
  cbv zeta.
  assert (B : forall (f : geometry -> geometry -> result R),
             (forall g e, f (geometry_of (translate tx ty g))
                            (geometry_of (translate tx ty e))
                          = f (geometry_of g) (geometry_of e)) ->
             bcast2 f (map geometry_of (map (translate tx ty) gt))
                      (map geometry_of (map (translate tx ty) ex))
             = bcast2 f (map geometry_of gt) (map geometry_of ex)).
  { intros f Hf. rewrite !map_map.
    rewrite (bcast2_map f (fun g e => f (geometry_of g) (geometry_of e))
               (fun g => geometry_of (translate tx ty g))
               (fun e => geometry_of (translate tx ty e)) gt ex Hf).
    symmetry. apply bcast2_map. reflexivity. }
  rewrite !B; [reflexivity | | | |];
    intros g e; rewrite !geometry_of_translate;
    cbn [g_width g_height g_ctr_x g_ctr_y]; try reflexivity;
    f_equal; ring.
Qed.

End RegressionTranslation.
